(** * Katalog Buku API: a shallow embedding of [main.py]

    The service keeps two module-level dictionaries, [books] and [orders],
    and exposes seven FastAPI routes over them.  This development embeds the
    request models, the dictionaries and the route handlers, and proves the
    stock invariant, the confirmation contract and the listing contract.

    Conventions of the embedding:
    - a Python [int] is a [Z]; a Python [str] is a [string] (the sequence of
      its UTF-8 bytes, on which equality and the substring test of [in]
      agree with the code-point view);
    - a Python [dict] used as a store keeps its keys in insertion order, so
      it is an association list; the small dictionaries with a fixed set of
      keys (the book and order records) are records;
    - a handler is a function from the store to an outcome and the next
      store: [Return v] for [return v], [Raise e] for [raise HTTPException];
      requests are served one at a time, each to completion;
    - [uuid4()] is outside the program: the value it returns in a call is an
      argument of the handler that makes the call. *)

From Stdlib Require Import ZArith List String Ascii Bool Lia.
Import ListNotations.

Local Open Scope string_scope.
Local Open Scope Z_scope.
Local Open Scope list_scope.

(** ** Python dictionaries, in insertion order *)

Section Dict.
Context {V : Type}.

Definition dict := list (string * V).

(** [d.get(k)] *)
Fixpoint dict_get (d : dict) (k : string) : option V :=
  match d with
  | [] => None
  | (k', v) :: d' => if String.eqb k' k then Some v else dict_get d' k
  end.

(** [d[k] = v]: a key already present keeps its position, a new key goes
    last. *)
Fixpoint dict_set (d : dict) (k : string) (v : V) : dict :=
  match d with
  | [] => [(k, v)]
  | (k', v') :: d' =>
      if String.eqb k' k then (k', v) :: d' else (k', v') :: dict_set d' k v
  end.

(** [list(d.keys())] and [list(d.values())] *)
Definition dict_keys (d : dict) : list string := map fst d.
Definition dict_values (d : dict) : list V := map snd d.
End Dict.

Arguments dict V : clear implicits.

(** ** Records held in the stores *)

Module Book.
(** The dictionary built by [create_book]: keys "id", "title", "author",
    "stock". *)
Record t := mk { id : string; title : string; author : string; stock : Z }.

(** [book["stock"] = s] *)
Definition set_stock (b : t) (s : Z) : t :=
  {| id := id b; title := title b; author := author b; stock := s |}.
End Book.

Module Order.
(** The dictionary built by [create_order]: keys "id", "book_id", "qty",
    "customer_name", "status". *)
Record t := mk { id : string; book_id : string; qty : Z;
                 customer_name : string; status : string }.

(** [order["status"] = s] *)
Definition set_status (o : t) (s : string) : t :=
  {| id := id o; book_id := book_id o; qty := qty o;
     customer_name := customer_name o; status := s |}.
End Order.

(** ** Request models (pydantic) *)

Module BookCreate.
Record t := mk { title : string; author : string; stock : Z }.

(** Fields whose [Field(...)] constraint fails: [min_length=1] on title and
    author, [ge=0] on stock. *)
Definition errors (p : t) : list string :=
  (if (String.length (title p) <? 1)%nat then ["title"] else []) ++
  (if (String.length (author p) <? 1)%nat then ["author"] else []) ++
  (if stock p <? 0 then ["stock"] else []).
End BookCreate.

Module BookStockUpdate.
Record t := mk { set_stock : option Z; delta : option Z }.

(** [set_stock: Optional[int] = Field(default=None, ge=0)]; [delta] is
    unconstrained. *)
Definition errors (p : t) : list string :=
  match set_stock p with
  | Some v => if v <? 0 then ["set_stock"] else []
  | None => []
  end.
End BookStockUpdate.

Module OrderCreate.
Record t := mk { book_id : string; qty : Z; customer_name : string }.

(** [qty: int = Field(gt=0)], [customer_name: str = Field(min_length=1)]. *)
Definition errors (p : t) : list string :=
  (if qty p <=? 0 then ["qty"] else []) ++
  (if (String.length (customer_name p) <? 1)%nat then ["customer_name"] else []).
End OrderCreate.

(** ** The stores and the outcomes of a handler *)

Record state := mkState { books : dict Book.t; orders : dict Order.t }.

(** [books = {}], [orders = {}] *)
Definition init : state := {| books := []; orders := [] |}.

Record HTTPException := mkHTTPException { status_code : Z; detail : string }.

Inductive outcome (A : Type) : Type :=
| Return (a : A)
| Raise (e : HTTPException).
Arguments Return {A} a.
Arguments Raise {A} e.

(** The body returned by [confirm_order]. *)
Record Confirmation := mkConfirmation
  { message : string; order : Order.t; book : Book.t }.

(** The body returned by [list_books]. *)
Record Listing := mkListing { items : list Book.t; count : Z }.

(** ** Handlers *)

(** [create_book(payload)], with [uuid] the string of the [uuid4()] drawn. *)
Definition create_book (uuid : string) (payload : BookCreate.t) (st : state)
  : outcome Book.t * state :=
  let book_id := uuid in
  let b := {| Book.id := book_id;
              Book.title := BookCreate.title payload;
              Book.author := BookCreate.author payload;
              Book.stock := BookCreate.stock payload |} in
  (Return b, {| books := dict_set (books st) book_id b; orders := orders st |}).

(** [get_book(book_id)].  A stored book is a non-empty dictionary, so
    [not book] holds exactly when [books.get] gave [None]. *)
Definition get_book (book_id : string) (st : state) : outcome Book.t * state :=
  match dict_get (books st) book_id with
  | None => (Raise (mkHTTPException 404 "Buku tidak ditemukan"), st)
  | Some b => (Return b, st)
  end.

(** [update_stock(book_id, payload)].  The assignment to [book["stock"]]
    writes into the dictionary stored under [book_id]. *)
Definition update_stock (book_id : string) (payload : BookStockUpdate.t)
    (st : state) : outcome Book.t * state :=
  match dict_get (books st) book_id with
  | None => (Raise (mkHTTPException 404 "Buku tidak ditemukan"), st)
  | Some b =>
      match BookStockUpdate.set_stock payload, BookStockUpdate.delta payload with
      | None, None =>
          (Raise (mkHTTPException 400 "Isi set_stock atau delta"), st)
      | Some _, Some _ =>
          (Raise (mkHTTPException 400 "Pilih salah satu: set_stock atau delta"), st)
      | Some s, None =>
          let b' := Book.set_stock b s in
          (Return b', {| books := dict_set (books st) book_id b';
                         orders := orders st |})
      | None, Some d =>
          let new_stock := Book.stock b + d in
          if new_stock <? 0 then
            (Raise (mkHTTPException 400 "Stok tidak boleh negatif"), st)
          else
            let b' := Book.set_stock b new_stock in
            (Return b', {| books := dict_set (books st) book_id b';
                           orders := orders st |})
      end
  end.

(** [create_order(payload)], with [uuid] the string of the [uuid4()] drawn
    once the book has been found. *)
Definition create_order (uuid : string) (payload : OrderCreate.t) (st : state)
  : outcome Order.t * state :=
  match dict_get (books st) (OrderCreate.book_id payload) with
  | None => (Raise (mkHTTPException 404 "Buku tidak ditemukan"), st)
  | Some _ =>
      let order_id := uuid in
      let o := {| Order.id := order_id;
                  Order.book_id := OrderCreate.book_id payload;
                  Order.qty := OrderCreate.qty payload;
                  Order.customer_name := OrderCreate.customer_name payload;
                  Order.status := "pending" |} in
      (Return o, {| books := books st; orders := dict_set (orders st) order_id o |})
  end.

(** [get_order(order_id)] *)
Definition get_order (order_id : string) (st : state) : outcome Order.t * state :=
  match dict_get (orders st) order_id with
  | None => (Raise (mkHTTPException 404 "Pesanan tidak ditemukan"), st)
  | Some o => (Return o, st)
  end.

(** [confirm_order(order_id)] *)
Definition confirm_order (order_id : string) (st : state)
  : outcome Confirmation * state :=
  match dict_get (orders st) order_id with
  | None => (Raise (mkHTTPException 404 "Pesanan tidak ditemukan"), st)
  | Some o =>
      if negb (String.eqb (Order.status o) "pending") then
        (Raise (mkHTTPException 400 "Pesanan sudah diproses / bukan pending"), st)
      else
        match dict_get (books st) (Order.book_id o) with
        | None =>
            (Raise (mkHTTPException 404 "Buku pada pesanan tidak ditemukan"), st)
        | Some b =>
            if Book.stock b <? Order.qty o then
              (Raise (mkHTTPException 400 "Stok tidak mencukupi untuk konfirmasi"), st)
            else
              let b' := Book.set_stock b (Book.stock b - Order.qty o) in
              let o' := Order.set_status o "confirmed" in
              (Return (mkConfirmation "Pesanan berhasil dikonfirmasi" o' b'),
               {| books := dict_set (books st) (Order.book_id o) b';
                  orders := dict_set (orders st) order_id o' |})
        end
  end.

(** ** Listing *)

(** [needle in hay] on strings: [needle] occurs in [hay] at some offset. *)
Fixpoint str_in (needle hay : string) : bool :=
  if String.prefix needle hay then true
  else match hay with
       | EmptyString => false
       | String _ hay' => str_in needle hay'
       end.

(** [str.lower] on a string of ASCII characters: the letters A to Z move to
    a to z and every other character stays. *)
Definition ascii_lower_char (c : ascii) : ascii :=
  let n := nat_of_ascii c in
  if ((65 <=? n) && (n <=? 90))%nat then ascii_of_nat (n + 32) else c.

Fixpoint string_map (f : ascii -> ascii) (s : string) : string :=
  match s with
  | EmptyString => EmptyString
  | String c s' => String (f c) (string_map f s')
  end.

Definition ascii_lower (s : string) : string := string_map ascii_lower_char s.

(** Closes a statement about a given run, such as [uuid4_fresh] below, by
    evaluating the run. *)
Ltac fresh_by_evaluation := vm_compute; intuition.

Section Service.

(** [str.lower].  Its Unicode case tables belong to the interpreter, not
    to the program, so the listing takes it as a parameter; on ASCII text it
    is [ascii_lower]. *)
Variable lower : string -> string.

(** The test of the comprehension in [list_books]. *)
Definition matches (q_lower : string) (b : Book.t) : bool :=
  str_in q_lower (lower (Book.title b)) || str_in q_lower (lower (Book.author b)).

(** [list_books(q)].  [if q:] is false for [None] and for the empty
    string. *)
Definition list_books (q : option string) (st : state) : outcome Listing * state :=
  let data := dict_values (books st) in
  let data :=
    match q with
    | None | Some EmptyString => data
    | Some q =>
        let q_lower := lower q in
        filter (matches q_lower) data
    end in
  (Return {| items := data; count := Z.of_nat (List.length data) |}, st).

(** ** Routes

    FastAPI builds the payload from the request body and checks the
    [Field] constraints before it calls the handler: a payload that breaks
    one is answered 422 and the handler does not run. *)

Inductive body : Type :=
| BookBody (b : Book.t)
| OrderBody (o : Order.t)
| ListingBody (l : Listing)
| ConfirmationBody (c : Confirmation).

Inductive response : Type :=
| Ok (b : body)
| Failed (e : HTTPException)
| Unprocessable (fields : list string).

Definition status (r : response) : Z :=
  match r with
  | Ok _ => 200
  | Failed e => status_code e
  | Unprocessable _ => 422
  end.

Definition respond {A} (wrap : A -> body) (r : outcome A * state)
  : response * state :=
  match fst r with
  | Return a => (Ok (wrap a), snd r)
  | Raise e => (Failed e, snd r)
  end.

Inductive request : Type :=
| POST_books (uuid : string) (payload : BookCreate.t)
| GET_books (q : option string)
| GET_book (book_id : string)
| PATCH_book_stock (book_id : string) (payload : BookStockUpdate.t)
| POST_orders (uuid : string) (payload : OrderCreate.t)
| GET_order (order_id : string)
| POST_order_confirm (order_id : string).

Definition handle (rq : request) (st : state) : response * state :=
  match rq with
  | POST_books uuid payload =>
      match BookCreate.errors payload with
      | [] => respond BookBody (create_book uuid payload st)
      | fields => (Unprocessable fields, st)
      end
  | GET_books q => respond ListingBody (list_books q st)
  | GET_book book_id => respond BookBody (get_book book_id st)
  | PATCH_book_stock book_id payload =>
      match BookStockUpdate.errors payload with
      | [] => respond BookBody (update_stock book_id payload st)
      | fields => (Unprocessable fields, st)
      end
  | POST_orders uuid payload =>
      match OrderCreate.errors payload with
      | [] => respond OrderBody (create_order uuid payload st)
      | fields => (Unprocessable fields, st)
      end
  | GET_order order_id => respond OrderBody (get_order order_id st)
  | POST_order_confirm order_id =>
      respond ConfirmationBody (confirm_order order_id st)
  end.

(** A run of the service: the requests are served one after the other, each
    to completion. *)
Fixpoint run (rqs : list request) (st : state) : list (request * response) * state :=
  match rqs with
  | [] => ([], st)
  | rq :: rqs' =>
      let (rs, st1) := handle rq st in
      let (tr, st2) := run rqs' st1 in
      ((rq, rs) :: tr, st2)
  end.

(** The states the service can be in. *)
Inductive reachable : state -> Prop :=
| reachable_init : reachable init
| reachable_handle rq st : reachable st -> reachable (snd (handle rq st)).

(** ** A scenario

    The books and the orders of the examples of the specification: a book
    with 10 copies ordered 3 at a time, a book with 2 copies ordered 5 at a
    time.  The identifiers stand for four answers of [uuid4()]. *)

Definition dune_id : string := "6f1d2c3a-58b1-4e0a-9c57-0d4f8a1b2c3d".
Definition foundation_id : string := "a3c9e7f0-1b24-4d6e-8f35-7e6d5c4b3a29".
Definition order1_id : string := "0e8b7a65-4c3d-4b2a-9180-f1e2d3c4b5a6".
Definition order2_id : string := "c7d6e5f4-a3b2-4c1d-8e9f-0a1b2c3d4e5f".

Definition dune : BookCreate.t :=
  {| BookCreate.title := "Dune"; BookCreate.author := "Herbert";
     BookCreate.stock := 10 |}.

Definition foundation : BookCreate.t :=
  {| BookCreate.title := "Foundation"; BookCreate.author := "Asimov";
     BookCreate.stock := 2 |}.

Definition order1 : OrderCreate.t :=
  {| OrderCreate.book_id := dune_id; OrderCreate.qty := 3;
     OrderCreate.customer_name := "Ayu" |}.

Definition order2 : OrderCreate.t :=
  {| OrderCreate.book_id := foundation_id; OrderCreate.qty := 5;
     OrderCreate.customer_name := "Budi" |}.

Definition scenario : list request :=
  [POST_books dune_id dune; POST_books foundation_id foundation;
   POST_orders order1_id order1; POST_orders order2_id order2].

(** The stores after the scenario. *)
Definition scenario_state : state := snd (run scenario init).

(** What the scenario stored for the first book and the two orders. *)
Definition dune_book : Book.t := Book.mk dune_id "Dune" "Herbert" 10.
Definition foundation_book : Book.t := Book.mk foundation_id "Foundation" "Asimov" 2.
Definition order1_rec : Order.t := Order.mk order1_id dune_id 3 "Ayu" "pending".
Definition order2_rec : Order.t := Order.mk order2_id foundation_id 5 "Budi" "pending".

(** Requests that follow the confirmation of the first order: a second
    confirmation of it, a restocking, one more order and its confirmation,
    a listing. *)
Definition order3_id : string := "5b4a3928-1716-4504-b3a2-918f7e6d5c4b".

Definition aftermath : list request :=
  [POST_order_confirm order1_id;
   PATCH_book_stock dune_id (BookStockUpdate.mk None (Some 5));
   POST_orders order3_id order1;
   POST_order_confirm order3_id;
   GET_books None].

(** An identifier that the scenario gave to no book. *)
Definition unknown_id : string := "00000000-0000-4000-8000-000000000000".

(** ** Vocabulary of the properties *)

(** Every stored book has a stock that is at least 0. *)
Definition stocks_nonneg (st : state) : Prop :=
  Forall (fun b => 0 <= Book.stock b) (dict_values (books st)).

(** What the handlers keep true of a stored book and of a stored order. *)
Definition book_ok (kb : string * Book.t) : Prop :=
  Book.id (snd kb) = fst kb /\ 0 <= Book.stock (snd kb).

Definition order_ok (ko : string * Order.t) : Prop :=
  Order.id (snd ko) = fst ko /\ 0 < Order.qty (snd ko) /\
  (Order.status (snd ko) = "pending" \/ Order.status (snd ko) = "confirmed").

Record wf (st : state) : Prop := mkWf
  { wf_book_keys : NoDup (dict_keys (books st));
    wf_order_keys : NoDup (dict_keys (orders st));
    wf_books : Forall book_ok (books st);
    wf_orders : Forall order_ok (orders st) }.

(** The call of [uuid4()] that serving [rq] in [st] makes, if it makes one,
    is answered with an identifier that no stored record of its kind
    carries. *)
Definition uuid4_fresh1 (rq : request) (st : state) : Prop :=
  match rq with
  | POST_books uuid payload =>
      BookCreate.errors payload = [] -> dict_get (books st) uuid = None
  | POST_orders uuid payload =>
      OrderCreate.errors payload = [] ->
      dict_get (books st) (OrderCreate.book_id payload) <> None ->
      dict_get (orders st) uuid = None
  | _ => True
  end.

Fixpoint uuid4_fresh (rqs : list request) (st : state) : Prop :=
  match rqs with
  | [] => True
  | rq :: rqs' => uuid4_fresh1 rq st /\ uuid4_fresh rqs' (snd (handle rq st))
  end.

(** The identifiers of the books, and of the orders, that a run created, in
    the order of their creation. *)
Definition new_book_id (x : request * response) : list string :=
  match x with
  | (POST_books _ _, Ok (BookBody b)) => [Book.id b]
  | _ => []
  end.

Definition new_order_id (x : request * response) : list string :=
  match x with
  | (POST_orders _ _, Ok (OrderBody o)) => [Order.id o]
  | _ => []
  end.

Definition new_book_ids (tr : list (request * response)) : list string :=
  flat_map new_book_id tr.

Definition new_order_ids (tr : list (request * response)) : list string :=
  flat_map new_order_id tr.

(** The confirmations of [order_id] that a run answered 200. *)
Definition confirmed_here (order_id : string) (x : request * response) : bool :=
  match x with
  | (POST_order_confirm oid, Ok _) => String.eqb oid order_id
  | _ => false
  end.

Definition confirmations (order_id : string) (tr : list (request * response)) : nat :=
  List.length (filter (confirmed_here order_id) tr).

(** [q] occurs in [s] when case is ignored: the lowered [q] is a contiguous
    part of the lowered [s]. *)
Definition ci_substring (q s : string) : Prop :=
  exists pre post, lower s = (pre ++ lower q ++ post)%string.

Definition ci_match (q : string) (b : Book.t) : Prop :=
  ci_substring q (Book.title b) \/ ci_substring q (Book.author b).

(** The same said on [s] itself: some contiguous part of [s] is [q] up to
    the case of its letters. *)
Definition ci_part (q s : string) : Prop :=
  exists pre mid post,
    s = (pre ++ mid ++ post)%string /\ lower mid = lower q.

(** The three messages with which the handlers refuse a request that is
    well-formed but cannot be served in the current state. *)
Definition already_processed : HTTPException :=
  mkHTTPException 400 "Pesanan sudah diproses / bukan pending".
Definition insufficient_stock : HTTPException :=
  mkHTTPException 400 "Stok tidak mencukupi untuk konfirmasi".
Definition negative_stock : HTTPException :=
  mkHTTPException 400 "Stok tidak boleh negatif".

(** ** Vocabulary of the further properties *)

(** What the checks of [BookCreate] and [OrderCreate] leave true of the
    stored records, and the link from an order to its book. *)
Definition book_named (kb : string * Book.t) : Prop :=
  Book.title (snd kb) <> "" /\ Book.author (snd kb) <> "".

Definition order_linked (st : state) (ko : string * Order.t) : Prop :=
  Order.customer_name (snd ko) <> "" /\
  dict_get (books st) (Order.book_id (snd ko)) <> None.

Record linked (st : state) : Prop := mkLinked
  { linked_books : Forall book_named (books st);
    linked_orders : Forall (order_linked st) (orders st) }.

(** The copies of the book [book_id] that the confirmed orders have taken. *)
Definition confirmed_qty_of (book_id : string) (o : Order.t) : Z :=
  if String.eqb (Order.book_id o) book_id
     && String.eqb (Order.status o) "confirmed"
  then Order.qty o else 0.

Definition confirmed_qty (book_id : string) (st : state) : Z :=
  fold_right (fun o acc => confirmed_qty_of book_id o + acc) 0
    (dict_values (orders st)).

(** [rq] is a stock update of the book [book_id]. *)
Definition is_stock_update (book_id : string) (rq : request) : bool :=
  match rq with
  | PATCH_book_stock k _ => String.eqb k book_id
  | _ => false
  end.

(** The three routes that only read. *)
Definition is_read (rq : request) : bool :=
  match rq with
  | GET_books _ | GET_book _ | GET_order _ => true
  | _ => false
  end.

(** A stock update by [delta] alone, and one by [set_stock] alone. *)
Definition by_delta (d : Z) : BookStockUpdate.t := BookStockUpdate.mk None (Some d).
Definition by_set_stock (v : Z) : BookStockUpdate.t := BookStockUpdate.mk (Some v) None.

(** The status codes found on the paths of each route: 200 on its return,
    the codes of its [raise] statements, and 422 where it takes a payload
    with a constraint. *)
Definition route_statuses (rq : request) : list Z :=
  match rq with
  | POST_books _ _ => [200; 422]
  | GET_books _ => [200]
  | GET_book _ => [200; 404]
  | PATCH_book_stock _ _ => [200; 400; 404; 422]
  | POST_orders _ _ => [200; 404; 422]
  | GET_order _ => [200; 404]
  | POST_order_confirm _ => [200; 400; 404]
  end.

(** ** Dictionary lemmas *)

Lemma dict_get_set_eq {V} (d : dict V) k v : dict_get (dict_set d k v) k = Some v.
Proof.
  induction d as [|[k' v'] d IH]; simpl.
  - now rewrite String.eqb_refl.
  - destruct (String.eqb k' k) eqn:E; simpl; rewrite E; auto.
Qed.

Lemma dict_get_set_ne {V} (d : dict V) k k' v :
  k <> k' -> dict_get (dict_set d k v) k' = dict_get d k'.
Proof.
  intros Hne. induction d as [|[k0 v0] d IH]; simpl.
  - destruct (String.eqb_spec k k'); congruence.
  - destruct (String.eqb_spec k0 k) as [->|Hk]; simpl.
    + destruct (String.eqb_spec k k'); congruence.
    + now rewrite IH.
Qed.

Lemma dict_get_In {V} (d : dict V) k v : dict_get d k = Some v -> In (k, v) d.
Proof.
  induction d as [|[k0 v0] d IH]; simpl; [discriminate|].
  destruct (String.eqb_spec k0 k) as [->|Hk]; intros H.
  - injection H as ->. now left.
  - right. auto.
Qed.


Lemma dict_set_present {V} (d : dict V) k v :
  dict_get d k <> None -> dict_keys (dict_set d k v) = dict_keys d.
Proof.
  induction d as [|[k0 v0] d IH]; simpl; [congruence|].
  destruct (String.eqb_spec k0 k) as [->|Hk]; simpl; intros H; [reflexivity|].
  f_equal. auto.
Qed.

Lemma dict_set_absent {V} (d : dict V) k v :
  dict_get d k = None -> dict_set d k v = d ++ [(k, v)].
Proof.
  induction d as [|[k0 v0] d IH]; simpl; [reflexivity|].
  destruct (String.eqb_spec k0 k) as [->|Hk]; [discriminate|].
  intros H. f_equal. auto.
Qed.

Lemma dict_set_In {V} (d : dict V) k v x :
  In x (dict_set d k v) -> x = (k, v) \/ In x d.
Proof.
  induction d as [|[k0 v0] d IH]; simpl.
  - intros [<-|[]]. now left.
  - destruct (String.eqb_spec k0 k) as [->|Hk]; simpl.
    + intros [<-|H]; auto.
    + intros [<-|H]; auto. destruct (IH H); auto.
Qed.

Lemma dict_set_keys_In {V} (d : dict V) k v x :
  In x (dict_keys (dict_set d k v)) <-> x = k \/ In x (dict_keys d).
Proof.
  induction d as [|[k0 v0] d IH]; simpl.
  - intuition.
  - destruct (String.eqb_spec k0 k) as [->|Hk]; simpl.
    + intuition.
    + rewrite IH. intuition.
Qed.

Lemma dict_set_NoDup {V} (d : dict V) k v :
  NoDup (dict_keys d) -> NoDup (dict_keys (dict_set d k v)).
Proof.
  induction d as [|[k0 v0] d IH]; simpl; intros H.
  - constructor; [intros [] | constructor].
  - destruct (String.eqb_spec k0 k) as [->|Hk]; simpl; [exact H|].
    inversion H as [|? ? Hin Hnd]; subst. constructor; auto.
    rewrite dict_set_keys_In. intros [E|I]; auto.
Qed.

Lemma dict_set_Forall {V} (P : string * V -> Prop) (d : dict V) k v :
  Forall P d -> P (k, v) -> Forall P (dict_set d k v).
Proof.
  intros Hd Hkv. apply Forall_forall. intros x Hx.
  destruct (dict_set_In _ _ _ _ Hx) as [->|Hin]; auto.
  rewrite Forall_forall in Hd. auto.
Qed.

Lemma dict_get_Forall {V} (P : string * V -> Prop) (d : dict V) k v :
  Forall P d -> dict_get d k = Some v -> P (k, v).
Proof.
  intros Hd Hg. rewrite Forall_forall in Hd. apply Hd. now apply dict_get_In.
Qed.

(** ** The substring test *)

Lemma prefix_app (a b : string) : String.prefix a (a ++ b) = true.
Proof.
  induction a as [|c a IH]; simpl.
  - now destruct b.
  - destruct (ascii_dec c c); [exact IH | congruence].
Qed.

Lemma prefix_split (a s : string) :
  String.prefix a s = true -> exists post, s = (a ++ post)%string.
Proof.
  revert s. induction a as [|c a IH]; intros s H.
  - now exists s.
  - destruct s as [|c' s]; simpl in H; [discriminate|].
    destruct (ascii_dec c c') as [Hc|Hc]; [|discriminate].
    destruct (IH _ H) as [post Hs]. exists post. simpl. congruence.
Qed.

Lemma str_in_spec (needle hay : string) :
  str_in needle hay = true <->
  exists pre post, hay = (pre ++ needle ++ post)%string.
Proof.
  split.
  - induction hay as [|c hay IH].
    + destruct needle; simpl; intros H; [|discriminate H].
      now exists EmptyString, EmptyString.
    + cbn [str_in]. destruct (String.prefix needle (String c hay)) eqn:E.
      * intros _. destruct (prefix_split _ _ E) as [post Hs].
      exists EmptyString, post. exact Hs.
      * intros H. destruct (IH H) as (pre & post & Hs).
        exists (String c pre), post. simpl. now rewrite Hs.
  - intros (pre & post & ->). induction pre as [|c pre IH].
    + change (str_in needle (needle ++ post) = true).
      pose proof (prefix_app needle post) as Hp.
      destruct (needle ++ post)%string; cbn [str_in]; now rewrite Hp.
    + change (str_in needle (String c (pre ++ needle ++ post)) = true).
      cbn [str_in]. rewrite IH. now destruct (String.prefix needle _).
Qed.

(** ** What the payload checks give *)

Lemma BookCreate_errors_nil p :
  BookCreate.errors p = [] <->
  BookCreate.title p <> "" /\ BookCreate.author p <> "" /\ 0 <= BookCreate.stock p.
Proof.
  unfold BookCreate.errors.
  destruct (BookCreate.title p) as [|c1 t]; destruct (BookCreate.author p) as [|c2 a];
    destruct (Z.ltb_spec (BookCreate.stock p) 0); simpl;
    intuition (try discriminate; try congruence; try lia).
Qed.

Lemma BookStockUpdate_errors_nil p :
  BookStockUpdate.errors p = [] <->
  forall v, BookStockUpdate.set_stock p = Some v -> 0 <= v.
Proof.
  unfold BookStockUpdate.errors.
  destruct (BookStockUpdate.set_stock p) as [v|].
  - destruct (Z.ltb_spec v 0) as [Hv|Hv]; split; intros H.
    + discriminate.
    + specialize (H v eq_refl). lia.
    + intros w [= <-]. assumption.
    + reflexivity.
  - split; [intros _ v; discriminate | reflexivity].
Qed.

Lemma OrderCreate_errors_nil p :
  OrderCreate.errors p = [] <->
  0 < OrderCreate.qty p /\ OrderCreate.customer_name p <> "".
Proof.
  unfold OrderCreate.errors.
  destruct (OrderCreate.customer_name p) as [|c n];
    destruct (Z.leb_spec (OrderCreate.qty p) 0); simpl;
    intuition (try discriminate; try congruence; try lia).
Qed.

(** ** The invariant of the stores *)

Lemma snd_respond {A} (wrap : A -> body) r : snd (respond wrap r) = snd r.
Proof. unfold respond. now destruct (fst r). Qed.

Lemma fst_respond {A} (wrap : A -> body) r :
  fst (respond wrap r) =
  match fst r with Return a => Ok (wrap a) | Raise e => Failed e end.
Proof. unfold respond. now destruct (fst r). Qed.

Lemma wf_init : wf init.
Proof. split; simpl; constructor. Qed.

Lemma create_book_wf uuid p st :
  0 <= BookCreate.stock p -> wf st -> wf (snd (create_book uuid p st)).
Proof.
  intros Hs [Hb Ho Hfb Hfo]. split; simpl; auto.
  - now apply dict_set_NoDup.
  - apply dict_set_Forall; auto. split; simpl; auto.
Qed.

Lemma update_stock_wf book_id p st :
  (forall v, BookStockUpdate.set_stock p = Some v -> 0 <= v) ->
  wf st -> wf (snd (update_stock book_id p st)).
Proof.
  intros Hp Hwf. unfold update_stock.
  destruct (dict_get (books st) book_id) as [b|] eqn:Hg; simpl; auto.
  pose proof (dict_get_Forall _ _ _ _ (wf_books _ Hwf) Hg) as [Hid _].
  simpl in Hid.
  destruct (BookStockUpdate.set_stock p) as [s|] eqn:Es;
    destruct (BookStockUpdate.delta p) as [d|]; simpl; auto.
  - destruct Hwf as [Hb Ho Hfb Hfo]. split; simpl; auto.
    + now apply dict_set_NoDup.
    + apply dict_set_Forall; auto. split; simpl; auto.
  - destruct (Z.ltb_spec (Book.stock b + d) 0); simpl; auto.
    destruct Hwf as [Hb Ho Hfb Hfo]. split; simpl; auto.
    + now apply dict_set_NoDup.
    + apply dict_set_Forall; auto. split; simpl; auto.
Qed.

Lemma create_order_wf uuid p st :
  0 < OrderCreate.qty p -> wf st -> wf (snd (create_order uuid p st)).
Proof.
  intros Hq Hwf. unfold create_order.
  destruct (dict_get (books st) (OrderCreate.book_id p)); simpl; auto.
  destruct Hwf as [Hb Ho Hfb Hfo]. split; simpl; auto.
  - now apply dict_set_NoDup.
  - apply dict_set_Forall; auto. repeat split; simpl; auto.
Qed.

Lemma confirm_order_wf order_id st : wf st -> wf (snd (confirm_order order_id st)).
Proof.
  intros Hwf. unfold confirm_order.
  destruct (dict_get (orders st) order_id) as [o|] eqn:Ho; simpl; auto.
  destruct (String.eqb (Order.status o) "pending"); simpl; auto.
  destruct (dict_get (books st) (Order.book_id o)) as [b|] eqn:Hb; simpl; auto.
  destruct (Z.ltb_spec (Book.stock b) (Order.qty o)); simpl; auto.
  pose proof (dict_get_Forall _ _ _ _ (wf_books _ Hwf) Hb) as [Hid _].
  pose proof (dict_get_Forall _ _ _ _ (wf_orders _ Hwf) Ho) as (Hoid & Hq & _).
  simpl in Hid, Hoid, Hq.
  destruct Hwf as [Hkb Hko Hfb Hfo]. split; simpl.
  - now apply dict_set_NoDup.
  - now apply dict_set_NoDup.
  - apply dict_set_Forall; auto. split; simpl; auto. lia.
  - apply dict_set_Forall; auto. repeat split; simpl; auto.
Qed.

Lemma handle_wf rq st : wf st -> wf (snd (handle rq st)).
Proof.
  intros Hwf. destruct rq as [uuid p|q|bid|bid p|uuid p|oid|oid]; cbn [handle].
  - destruct (BookCreate.errors p) eqn:E; [|exact Hwf].
    rewrite snd_respond. apply create_book_wf; auto.
    now apply BookCreate_errors_nil in E.
  - rewrite snd_respond. exact Hwf.
  - rewrite snd_respond. unfold get_book.
    now destruct (dict_get (books st) bid).
  - destruct (BookStockUpdate.errors p) eqn:E; [|exact Hwf].
    rewrite snd_respond. apply update_stock_wf; auto.
    now apply BookStockUpdate_errors_nil.
  - destruct (OrderCreate.errors p) eqn:E; [|exact Hwf].
    rewrite snd_respond. apply create_order_wf; auto.
    now apply OrderCreate_errors_nil in E.
  - rewrite snd_respond. unfold get_order.
    now destruct (dict_get (orders st) oid).
  - rewrite snd_respond. now apply confirm_order_wf.
Qed.

Lemma reachable_wf st : reachable st -> wf st.
Proof. induction 1; [apply wf_init | now apply handle_wf]. Qed.

Lemma wf_stocks_nonneg st : wf st -> stocks_nonneg st.
Proof.
  intros Hwf. unfold stocks_nonneg, dict_values.
  apply Forall_map. eapply Forall_impl; [|apply (wf_books _ Hwf)].
  now intros kb [_ H].
Qed.

Lemma run_cons rq rqs st :
  run (rq :: rqs) st =
  ((rq, fst (handle rq st)) :: fst (run rqs (snd (handle rq st))),
   snd (run rqs (snd (handle rq st)))).
Proof.
  simpl. destruct (handle rq st) as [rs st1]. simpl.
  now destruct (run rqs st1).
Qed.

Lemma reachable_run rqs st : reachable st -> reachable (snd (run rqs st)).
Proof.
  revert st. induction rqs as [|rq rqs IH]; intros st H; [exact H|].
  rewrite run_cons. simpl. apply IH. now constructor.
Qed.

(** ** Confirmation, case by case *)

Lemma confirm_order_success st order_id o b :
  dict_get (orders st) order_id = Some o ->
  Order.status o = "pending" ->
  dict_get (books st) (Order.book_id o) = Some b ->
  Order.qty o <= Book.stock b ->
  confirm_order order_id st =
  (Return (mkConfirmation "Pesanan berhasil dikonfirmasi"
             (Order.set_status o "confirmed")
             (Book.set_stock b (Book.stock b - Order.qty o))),
   {| books := dict_set (books st) (Order.book_id o)
                 (Book.set_stock b (Book.stock b - Order.qty o));
      orders := dict_set (orders st) order_id (Order.set_status o "confirmed") |}).
Proof.
  intros Ho Hs Hb Hq. unfold confirm_order. rewrite Ho, Hs, Hb. simpl.
  destruct (Z.ltb_spec (Book.stock b) (Order.qty o)); [lia | reflexivity].
Qed.

Lemma confirm_order_not_pending st order_id o :
  dict_get (orders st) order_id = Some o ->
  Order.status o <> "pending" ->
  confirm_order order_id st = (Raise already_processed, st).
Proof.
  intros Ho Hs. unfold confirm_order. rewrite Ho.
  destruct (String.eqb_spec (Order.status o) "pending"); [contradiction | reflexivity].
Qed.

Lemma confirm_order_insufficient st order_id o b :
  dict_get (orders st) order_id = Some o ->
  Order.status o = "pending" ->
  dict_get (books st) (Order.book_id o) = Some b ->
  Book.stock b < Order.qty o ->
  confirm_order order_id st = (Raise insufficient_stock, st).
Proof.
  intros Ho Hs Hb Hq. unfold confirm_order. rewrite Ho, Hs, Hb. simpl.
  destruct (Z.ltb_spec (Book.stock b) (Order.qty o)); [reflexivity | lia].
Qed.

(** A confirmation that returns has gone through every check. *)
Lemma confirm_order_Return st order_id c st' :
  confirm_order order_id st = (Return c, st') ->
  exists o b,
    dict_get (orders st) order_id = Some o /\
    Order.status o = "pending" /\
    dict_get (books st) (Order.book_id o) = Some b /\
    Order.qty o <= Book.stock b.
Proof.
  unfold confirm_order.
  destruct (dict_get (orders st) order_id) as [o|] eqn:Ho; [|discriminate].
  destruct (String.eqb_spec (Order.status o) "pending") as [Hs|Hs]; [|discriminate].
  simpl.
  destruct (dict_get (books st) (Order.book_id o)) as [b|] eqn:Hb; [|discriminate].
  destruct (Z.ltb_spec (Book.stock b) (Order.qty o)); [discriminate|].
  intros _. exists o, b. auto.
Qed.

(** ** The stock invariant *)

(** C1: in every reachable state every stored stock is at least 0, and it
    still is after any request is served; a book creation with a negative
    stock and a stock update with a negative [set_stock] are refused with
    422, a [delta] that would take the stock below 0 and a confirmation that
    would take it below 0 are refused with 400, and each refusal leaves the
    stores as they were. *)
Theorem stock_never_negative (st : state) (Hreach : reachable st) :
  stocks_nonneg st /\
  (forall rq, stocks_nonneg (snd (handle rq st))) /\
  (forall uuid p, BookCreate.stock p < 0 ->
     exists fields, In "stock" fields /\
       handle (POST_books uuid p) st = (Unprocessable fields, st)) /\
  (forall book_id b p v,
     dict_get (books st) book_id = Some b ->
     BookStockUpdate.set_stock p = Some v -> v < 0 ->
     handle (PATCH_book_stock book_id p) st = (Unprocessable ["set_stock"], st)) /\
  (forall book_id b p d,
     dict_get (books st) book_id = Some b ->
     BookStockUpdate.set_stock p = None ->
     BookStockUpdate.delta p = Some d ->
     Book.stock b + d < 0 ->
     handle (PATCH_book_stock book_id p) st = (Failed negative_stock, st)) /\
  (forall order_id o b,
     dict_get (orders st) order_id = Some o ->
     Order.status o = "pending" ->
     dict_get (books st) (Order.book_id o) = Some b ->
     Book.stock b - Order.qty o < 0 ->
     handle (POST_order_confirm order_id) st = (Failed insufficient_stock, st)).
Proof.
  pose proof (reachable_wf _ Hreach) as Hwf.
  split; [now apply wf_stocks_nonneg|].
  split; [intros rq; now apply wf_stocks_nonneg, handle_wf|].
  split; [|split; [|split]].
  - intros uuid p Hneg. cbn [handle].
    destruct (BookCreate.errors p) as [|f fs] eqn:E.
    + apply BookCreate_errors_nil in E. lia.
    + exists (f :: fs). split; [|reflexivity]. rewrite <- E.
      unfold BookCreate.errors. apply in_or_app. right. apply in_or_app. right.
      destruct (Z.ltb_spec (BookCreate.stock p) 0); [now left | lia].
  - intros book_id b p v _ Hv Hneg. cbn [handle].
    unfold BookStockUpdate.errors. rewrite Hv.
    destruct (Z.ltb_spec v 0); [reflexivity | lia].
  - intros book_id b p d Hb Hs Hd Hneg. cbn [handle].
    unfold BookStockUpdate.errors. rewrite Hs.
    unfold respond, update_stock. rewrite Hb, Hs, Hd.
    destruct (Z.ltb_spec (Book.stock b + d) 0); [reflexivity | lia].
  - intros order_id o b Ho Hs Hb Hneg. cbn [handle]. unfold respond.
    rewrite (confirm_order_insufficient _ _ _ _ Ho Hs Hb); [reflexivity | lia].
Qed.

(** ** Confirming an order *)

(** C2: when the order is pending, its book is in the catalogue and the
    stock covers the quantity, the confirmation answers 200 with the order
    marked "confirmed" and the book with its stock lowered by the quantity,
    and these are the records then stored. *)
Theorem confirm_decrements_stock st order_id o b :
  dict_get (orders st) order_id = Some o ->
  Order.status o = "pending" ->
  dict_get (books st) (Order.book_id o) = Some b ->
  Order.qty o <= Book.stock b ->
  exists o' b' st',
    handle (POST_order_confirm order_id) st =
      (Ok (ConfirmationBody
             (mkConfirmation "Pesanan berhasil dikonfirmasi" o' b')), st') /\
    Book.stock b' = Book.stock b - Order.qty o /\
    Order.status o' = "confirmed" /\
    dict_get (books st') (Order.book_id o) = Some b' /\
    dict_get (orders st') order_id = Some o'.
Proof.
  intros Ho Hs Hb Hq.
  exists (Order.set_status o "confirmed"),
         (Book.set_stock b (Book.stock b - Order.qty o)).
  eexists. cbn [handle]. unfold respond.
  rewrite (confirm_order_success _ _ _ _ Ho Hs Hb Hq). simpl.
  split; [reflexivity|]. repeat split; apply dict_get_set_eq.
Qed.

(** C4: when the order is pending and its book is in the catalogue with a
    stock below the quantity, the confirmation is refused with 400 and the
    stores are left as they were: same stock, status still "pending". *)
Theorem confirm_insufficient_stock st order_id o b :
  dict_get (orders st) order_id = Some o ->
  Order.status o = "pending" ->
  dict_get (books st) (Order.book_id o) = Some b ->
  Book.stock b < Order.qty o ->
  exists st',
    handle (POST_order_confirm order_id) st = (Failed insufficient_stock, st') /\
    status (Failed insufficient_stock) = 400 /\
    st' = st /\
    dict_get (books st') (Order.book_id o) = Some b /\
    (exists o', dict_get (orders st') order_id = Some o' /\
                Order.status o' = "pending").
Proof.
  intros Ho Hs Hb Hq. exists st. cbn [handle]. unfold respond.
  rewrite (confirm_order_insufficient _ _ _ _ Ho Hs Hb Hq). simpl.
  repeat split; auto. exists o. auto.
Qed.

(** ** Creating an order *)

(** C7: a request to create an order with a positive quantity and a
    non-empty customer name is answered 404, with the stores left as they
    were, when its book is not in the catalogue; when the book is there,
    whatever its stock, the answer is 200 with an order of status "pending"
    built from the payload, that order is stored under its identifier and
    the catalogue is left as it was. *)
Theorem create_order_checks_book_only st uuid p :
  0 < OrderCreate.qty p ->
  OrderCreate.customer_name p <> "" ->
  (dict_get (books st) (OrderCreate.book_id p) = None ->
     handle (POST_orders uuid p) st =
       (Failed (mkHTTPException 404 "Buku tidak ditemukan"), st)) /\
  (forall b, dict_get (books st) (OrderCreate.book_id p) = Some b ->
     exists o st',
       handle (POST_orders uuid p) st = (Ok (OrderBody o), st') /\
       o = Order.mk uuid (OrderCreate.book_id p) (OrderCreate.qty p)
             (OrderCreate.customer_name p) "pending" /\
       books st' = books st /\
       orders st' = dict_set (orders st) uuid o /\
       dict_get (orders st') uuid = Some o /\
       (dict_get (orders st) uuid = None ->
          orders st' = orders st ++ [(uuid, o)])).
Proof.
  intros Hq Hn.
  assert (E : OrderCreate.errors p = []) by now apply OrderCreate_errors_nil.
  split.
  - intros Hb. cbn [handle]. rewrite E. unfold respond, create_order.
    now rewrite Hb.
  - intros b Hb. do 2 eexists. cbn [handle]. rewrite E.
    unfold respond, create_order. rewrite Hb. simpl.
    split; [reflexivity|]. split; [reflexivity|].
    split; [reflexivity|]. split; [reflexivity|].
    split; [apply dict_get_set_eq | apply dict_set_absent].
Qed.

(** ** Updating the stock *)

(** C5, as the code has it: on a book of the catalogue, an update whose
    [set_stock] is negative is refused by the payload check with 422, and an
    update by a [delta] that would take the stock below 0 is refused by the
    handler with 400; both leave the stores as they were. *)
Theorem negative_stock_update_refused st book_id b p :
  dict_get (books st) book_id = Some b ->
  (forall v, BookStockUpdate.set_stock p = Some v -> v < 0 ->
     handle (PATCH_book_stock book_id p) st = (Unprocessable ["set_stock"], st) /\
     status (fst (handle (PATCH_book_stock book_id p) st)) = 422) /\
  (forall d, BookStockUpdate.set_stock p = None ->
     BookStockUpdate.delta p = Some d -> Book.stock b + d < 0 ->
     handle (PATCH_book_stock book_id p) st = (Failed negative_stock, st) /\
     status (fst (handle (PATCH_book_stock book_id p) st)) = 400).
Proof.
  intros Hb. split.
  - intros v Hv Hneg.
    assert (E : handle (PATCH_book_stock book_id p) st
                = (Unprocessable ["set_stock"], st)).
    { cbn [handle]. unfold BookStockUpdate.errors. rewrite Hv.
      destruct (Z.ltb_spec v 0); [reflexivity | lia]. }
    now rewrite E.
  - intros d Hs Hd Hneg.
    assert (E : handle (PATCH_book_stock book_id p) st
                = (Failed negative_stock, st)).
    { cbn [handle]. unfold BookStockUpdate.errors. rewrite Hs.
      unfold respond, update_stock. rewrite Hb, Hs, Hd.
      destruct (Z.ltb_spec (Book.stock b + d) 0); [reflexivity | lia]. }
    now rewrite E.
Qed.

(** C6, as the code has it: on a book of the catalogue, an update that
    gives neither [set_stock] nor [delta] is refused with 400, one that
    gives both is refused with 400 when its [set_stock] is at least 0 and
    with 422, by the payload check, when its [set_stock] is negative; every
    one of these refusals leaves the stores as they were. *)
Theorem set_stock_xor_delta st book_id b p :
  dict_get (books st) book_id = Some b ->
  (BookStockUpdate.set_stock p = None -> BookStockUpdate.delta p = None ->
     handle (PATCH_book_stock book_id p) st =
       (Failed (mkHTTPException 400 "Isi set_stock atau delta"), st)) /\
  (forall v d, BookStockUpdate.set_stock p = Some v ->
     BookStockUpdate.delta p = Some d -> 0 <= v ->
     handle (PATCH_book_stock book_id p) st =
       (Failed (mkHTTPException 400 "Pilih salah satu: set_stock atau delta"), st)) /\
  (forall v d, BookStockUpdate.set_stock p = Some v ->
     BookStockUpdate.delta p = Some d -> v < 0 ->
     handle (PATCH_book_stock book_id p) st = (Unprocessable ["set_stock"], st)).
Proof.
  intros Hb. split; [|split].
  - intros Hs Hd. cbn [handle]. unfold BookStockUpdate.errors. rewrite Hs.
    unfold respond, update_stock. now rewrite Hb, Hs, Hd.
  - intros v d Hs Hd Hv. cbn [handle]. unfold BookStockUpdate.errors. rewrite Hs.
    destruct (Z.ltb_spec v 0); [lia|].
    unfold respond, update_stock. now rewrite Hb, Hs, Hd.
  - intros v d Hs Hd Hv. cbn [handle]. unfold BookStockUpdate.errors. rewrite Hs.
    destruct (Z.ltb_spec v 0); [reflexivity | lia].
Qed.

(** ** An order is confirmed once *)

(** An order that is no longer pending is out of reach of every request:
    its record stays as it is, and a confirmation of it is not answered
    200. *)
Lemma settled_order_step rq st order_id o :
  dict_get (orders st) order_id = Some o ->
  Order.status o <> "pending" ->
  uuid4_fresh1 rq st ->
  dict_get (orders (snd (handle rq st))) order_id = Some o /\
  confirmed_here order_id (rq, fst (handle rq st)) = false.
Proof.
  intros Ho Hs Hfresh.
  destruct rq as [uuid p|q|bid|bid p|uuid p|oid|oid]; cbn [handle].
  - destruct (BookCreate.errors p); [rewrite snd_respond|]; simpl; auto.
  - rewrite snd_respond. simpl. auto.
  - rewrite snd_respond. unfold get_book.
    destruct (dict_get (books st) bid); simpl; auto.
  - destruct (BookStockUpdate.errors p); [rewrite snd_respond|]; simpl; auto.
    unfold update_stock. destruct (dict_get (books st) bid) as [b|]; simpl; auto.
    destruct (BookStockUpdate.set_stock p) as [v|], (BookStockUpdate.delta p) as [d|];
      simpl; auto.
    destruct (Book.stock b + d <? 0); simpl; auto.
  - destruct (OrderCreate.errors p) eqn:E; [rewrite snd_respond|]; simpl; auto.
    unfold create_order.
    destruct (dict_get (books st) (OrderCreate.book_id p)) eqn:Hb; simpl; auto.
    simpl in Hfresh. specialize (Hfresh E).
    rewrite Hb in Hfresh. specialize (Hfresh ltac:(discriminate)).
    rewrite dict_get_set_ne; auto. intros ->. congruence.
  - rewrite snd_respond. unfold get_order.
    destruct (dict_get (orders st) oid); simpl; auto.
  - rewrite snd_respond, fst_respond.
    destruct (String.eqb_spec oid order_id) as [->|Hne].
    + rewrite (confirm_order_not_pending _ _ _ Ho Hs). simpl. auto.
    + assert (Hc : confirmed_here order_id
                     (POST_order_confirm oid,
                      match fst (confirm_order oid st) with
                      | Return a => Ok (ConfirmationBody a)
                      | Raise e => Failed e
                      end) = false).
      { simpl. destruct (fst (confirm_order oid st)); auto.
        now apply String.eqb_neq. }
      split; [|exact Hc]. unfold confirm_order.
      destruct (dict_get (orders st) oid) as [o1|]; simpl; auto.
      destruct (String.eqb (Order.status o1) "pending"); simpl; auto.
      destruct (dict_get (books st) (Order.book_id o1)) as [b|]; simpl; auto.
      destruct (Book.stock b <? Order.qty o1); simpl; auto.
      now rewrite dict_get_set_ne.
Qed.

Lemma settled_order_run rqs st order_id o :
  dict_get (orders st) order_id = Some o ->
  Order.status o <> "pending" ->
  uuid4_fresh rqs st ->
  dict_get (orders (snd (run rqs st))) order_id = Some o /\
  confirmations order_id (fst (run rqs st)) = 0%nat.
Proof.
  revert st. induction rqs as [|rq rqs IH]; intros st Ho Hs Hf; [now split|].
  destruct Hf as [Hf1 Hf].
  destruct (settled_order_step _ _ _ _ Ho Hs Hf1) as [Ho1 Hc1].
  destruct (IH _ Ho1 Hs Hf) as [Ho2 Hc2].
  rewrite run_cons. cbn [fst snd]. split; [exact Ho2|].
  unfold confirmations in *. cbn [filter]. now rewrite Hc1.
Qed.

(** A confirmation answered 200 leaves the order stored as "confirmed". *)
Lemma confirm_ok_settles st order_id bd st1 :
  handle (POST_order_confirm order_id) st = (Ok bd, st1) ->
  exists o, dict_get (orders st1) order_id = Some o /\
            Order.status o = "confirmed".
Proof.
  cbn [handle]. unfold respond.
  destruct (confirm_order order_id st) as [[c|e] st'] eqn:E; simpl; [|discriminate].
  intros [= _ <-].
  destruct (confirm_order_Return _ _ _ _ E) as (o & b & Ho & Hs & Hb & Hq).
  rewrite (confirm_order_success _ _ _ _ Ho Hs Hb Hq) in E.
  injection E as _ <-. simpl.
  exists (Order.set_status o "confirmed"). split; [apply dict_get_set_eq | reflexivity].
Qed.

Lemma confirmations_le_1 order_id rqs st :
  uuid4_fresh rqs st -> (confirmations order_id (fst (run rqs st)) <= 1)%nat.
Proof.
  revert st. induction rqs as [|rq rqs IH]; intros st Hf;
    [unfold confirmations; simpl; lia|].
  destruct Hf as [Hf1 Hf]. rewrite run_cons. cbn [fst].
  unfold confirmations in *. cbn [filter].
  destruct (confirmed_here order_id (rq, fst (handle rq st))) eqn:Hc.
  - destruct rq as [?|?|?|?|?|?|oid]; try discriminate Hc.
    destruct (fst (handle (POST_order_confirm oid) st)) as [bd| |] eqn:Hr;
      try discriminate Hc.
    simpl in Hc. apply String.eqb_eq in Hc. subst oid.
    destruct (confirm_ok_settles st order_id bd
                (snd (handle (POST_order_confirm order_id) st)))
      as (o & Ho & Hs).
    { rewrite <- Hr. now destruct (handle (POST_order_confirm order_id) st). }
    assert (Hnp : Order.status o <> "pending") by (rewrite Hs; discriminate).
    destruct (settled_order_run _ _ _ _ Ho Hnp Hf) as [_ H0].
    unfold confirmations in H0. cbn [List.length]. rewrite H0. lia.
  - now apply IH.
Qed.

(** C3: with every [uuid4()] answered by an identifier not in use, once a
    confirmation of an order has been answered 200, then after any further
    requests the order is still stored as "confirmed", none of those
    requests was a confirmation of it answered 200, and one more
    confirmation of it is refused with 400 and leaves the stores as they
    are; so in any run an order is confirmed at most once. *)
Theorem confirm_at_most_once order_id :
  (forall st bd st1 rqs,
     handle (POST_order_confirm order_id) st = (Ok bd, st1) ->
     uuid4_fresh rqs st1 ->
     (exists o, dict_get (orders (snd (run rqs st1))) order_id = Some o /\
                Order.status o = "confirmed") /\
     confirmations order_id (fst (run rqs st1)) = 0%nat /\
     handle (POST_order_confirm order_id) (snd (run rqs st1)) =
       (Failed already_processed, snd (run rqs st1)) /\
     status (Failed already_processed) = 400) /\
  (forall st rqs,
     uuid4_fresh rqs st ->
     (confirmations order_id (fst (run rqs st)) <= 1)%nat).
Proof.
  split; [|intros st rqs; apply confirmations_le_1].
  intros st bd st1 rqs Hok Hf.
  destruct (confirm_ok_settles _ _ _ _ Hok) as (o & Ho & Hs).
  assert (Hnp : Order.status o <> "pending") by (rewrite Hs; discriminate).
  destruct (settled_order_run _ _ _ _ Ho Hnp Hf) as [Ho2 Hc].
  split; [now exists o|]. split; [exact Hc|]. split; [|reflexivity].
  cbn [handle]. unfold respond.
  now rewrite (confirm_order_not_pending _ _ _ Ho2 Hnp).
Qed.

(** ** Identifiers and the order of the catalogue *)

Lemma dict_set_fresh_keys {V} (d : dict V) k v :
  dict_get d k = None -> dict_keys (dict_set d k v) = dict_keys d ++ [k].
Proof.
  intros H. rewrite (dict_set_absent _ _ _ H). unfold dict_keys.
  now rewrite map_app.
Qed.

(** Serving a request adds to the keys of [books] the identifier of the
    book it created, if it created one, after the keys already there. *)
Lemma book_keys_step rq st :
  uuid4_fresh1 rq st ->
  dict_keys (books (snd (handle rq st))) =
  dict_keys (books st) ++ new_book_id (rq, fst (handle rq st)).
Proof.
  intros Hf.
  destruct rq as [uuid p|q|bid|bid p|uuid p|oid|oid]; cbn [handle].
  - destruct (BookCreate.errors p) eqn:E; simpl; [|now rewrite app_nil_r].
    apply dict_set_fresh_keys. now apply Hf.
  - simpl. now rewrite app_nil_r.
  - rewrite snd_respond. unfold get_book. simpl. rewrite app_nil_r.
    now destruct (dict_get (books st) bid).
  - simpl. rewrite app_nil_r.
    destruct (BookStockUpdate.errors p); [rewrite snd_respond|]; auto.
    unfold update_stock. destruct (dict_get (books st) bid) as [b|] eqn:Hb; auto.
    destruct (BookStockUpdate.set_stock p) as [v|], (BookStockUpdate.delta p) as [d|];
      simpl; auto.
    + apply dict_set_present. congruence.
    + destruct (Book.stock b + d <? 0); simpl; auto.
      apply dict_set_present. congruence.
  - simpl. rewrite app_nil_r.
    destruct (OrderCreate.errors p); [rewrite snd_respond|]; auto.
    unfold create_order.
    now destruct (dict_get (books st) (OrderCreate.book_id p)).
  - rewrite snd_respond. unfold get_order. simpl. rewrite app_nil_r.
    now destruct (dict_get (orders st) oid).
  - rewrite snd_respond. simpl. rewrite app_nil_r. unfold confirm_order.
    destruct (dict_get (orders st) oid) as [o|]; auto.
    destruct (String.eqb (Order.status o) "pending"); simpl; auto.
    destruct (dict_get (books st) (Order.book_id o)) as [b|] eqn:Hb; auto.
    destruct (Book.stock b <? Order.qty o); simpl; auto.
    apply dict_set_present. congruence.
Qed.

(** The same for [orders]. *)
Lemma order_keys_step rq st :
  uuid4_fresh1 rq st ->
  dict_keys (orders (snd (handle rq st))) =
  dict_keys (orders st) ++ new_order_id (rq, fst (handle rq st)).
Proof.
  intros Hf.
  destruct rq as [uuid p|q|bid|bid p|uuid p|oid|oid]; cbn [handle].
  - simpl. rewrite app_nil_r.
    now destruct (BookCreate.errors p).
  - simpl. now rewrite app_nil_r.
  - rewrite snd_respond. unfold get_book. simpl. rewrite app_nil_r.
    now destruct (dict_get (books st) bid).
  - simpl. rewrite app_nil_r.
    destruct (BookStockUpdate.errors p); [rewrite snd_respond|]; auto.
    unfold update_stock. destruct (dict_get (books st) bid) as [b|]; auto.
    destruct (BookStockUpdate.set_stock p) as [v|], (BookStockUpdate.delta p) as [d|];
      simpl; auto.
    now destruct (Book.stock b + d <? 0).
  - destruct (OrderCreate.errors p) eqn:E; simpl; [|now rewrite app_nil_r].
    unfold respond, create_order. simpl in Hf. specialize (Hf E).
    destruct (dict_get (books st) (OrderCreate.book_id p)) eqn:Hb; simpl;
      [|now rewrite app_nil_r].
    apply dict_set_fresh_keys. apply Hf. discriminate.
  - rewrite snd_respond. unfold get_order. simpl. rewrite app_nil_r.
    now destruct (dict_get (orders st) oid).
  - rewrite snd_respond, fst_respond.
    assert (E : new_order_id
                  (POST_order_confirm oid,
                   match fst (confirm_order oid st) with
                   | Return a => Ok (ConfirmationBody a)
                   | Raise e => Failed e
                   end) = []).
    { simpl. now destruct (fst (confirm_order oid st)). }
    rewrite E, app_nil_r. unfold confirm_order.
    destruct (dict_get (orders st) oid) as [o|] eqn:Ho; auto.
    destruct (String.eqb (Order.status o) "pending"); simpl; auto.
    destruct (dict_get (books st) (Order.book_id o)) as [b|]; auto.
    destruct (Book.stock b <? Order.qty o); simpl; auto.
    apply dict_set_present. congruence.
Qed.

Lemma keys_run rqs st :
  uuid4_fresh rqs st ->
  dict_keys (books (snd (run rqs st))) =
    dict_keys (books st) ++ new_book_ids (fst (run rqs st)) /\
  dict_keys (orders (snd (run rqs st))) =
    dict_keys (orders st) ++ new_order_ids (fst (run rqs st)).
Proof.
  revert st. induction rqs as [|rq rqs IH]; intros st Hf.
  - simpl. now rewrite !app_nil_r.
  - destruct Hf as [Hf1 Hf]. destruct (IH _ Hf) as [Hb Ho].
    rewrite run_cons. cbn [fst snd]. unfold new_book_ids, new_order_ids in *.
    cbn [flat_map]. rewrite Hb, Ho.
    rewrite (book_keys_step _ _ Hf1), (order_keys_step _ _ Hf1).
    now rewrite <- !app_assoc.
Qed.



(** ** Listing the catalogue *)

Lemma matches_spec q b : matches (lower q) b = true <-> ci_match q b.
Proof.
  unfold matches, ci_match, ci_substring.
  rewrite orb_true_iff, !str_in_spec. tauto.
Qed.

Lemma ids_are_keys (d : dict Book.t) :
  Forall book_ok d -> map Book.id (dict_values d) = dict_keys d.
Proof.
  induction 1 as [|[k b] d [Hid _] _ IH]; simpl; [reflexivity|].
  simpl in Hid. now rewrite Hid, IH.
Qed.

Lemma string_map_app f (a b : string) :
  string_map f (a ++ b) = (string_map f a ++ string_map f b)%string.
Proof. induction a as [|c a IH]; simpl; [reflexivity | now rewrite IH]. Qed.

Lemma string_map_app_inv f (s a b : string) :
  string_map f s = (a ++ b)%string ->
  exists s1 s2, s = (s1 ++ s2)%string /\ string_map f s1 = a /\ string_map f s2 = b.
Proof.
  revert s. induction a as [|c a IH]; intros s H.
  - exists EmptyString, s. auto.
  - destruct s as [|c' s]; [discriminate|]. simpl in H.
    injection H as Hc Hs. destruct (IH _ Hs) as (s1 & s2 & -> & H1 & H2).
    exists (String c' s1), s2. simpl. now rewrite Hc, H1.
Qed.

(** Where [lower] works character by character, as it does on ASCII text,
    the two readings of "contains when case is ignored" are one. *)
Lemma ci_substring_part f :
  (forall s, lower s = string_map f s) ->
  forall q s, ci_substring q s <-> ci_part q s.
Proof.
  intros Hl q s. unfold ci_substring, ci_part. split.
  - intros (pre & post & H). rewrite (Hl s) in H.
    destruct (string_map_app_inv _ _ _ _ H) as (s1 & s2 & -> & H1 & H2).
    destruct (string_map_app_inv _ _ _ _ H2) as (m & p & -> & Hm & Hp).
    exists s1, m, p. split; [reflexivity|]. now rewrite (Hl m).
  - intros (pre & mid & post & -> & H).
    exists (lower pre), (lower post).
    rewrite <- H, !Hl, !string_map_app. reflexivity.
Qed.

(** C8: without a query, and with the empty query, the listing is every
    stored book in the order of the store, and a non-empty query keeps, in
    that order, exactly the books whose title or author has the query in it
    when case is ignored; [count] is the length of [items] and the stores
    are left as they were.  Where [lower] works character by character,
    to have the query in it is to have a contiguous part equal to the query
    up to case.  The order of the store is the order of creation: with
    every [uuid4()] answered by an identifier not in use, the books created
    by a run come, in the order of their creation, after the books that
    were there. *)
Theorem list_books_contract st :
  (forall q, q = None \/ q = Some "" ->
     handle (GET_books q) st =
       (Ok (ListingBody
              {| items := dict_values (books st);
                 count := Z.of_nat (List.length (dict_values (books st))) |}), st)) /\
  (forall q, q <> "" ->
     exists keep its,
       (forall b, keep b = true <-> ci_match q b) /\
       its = filter keep (dict_values (books st)) /\
       (forall b, In b its <-> In b (dict_values (books st)) /\ ci_match q b) /\
       handle (GET_books (Some q)) st =
         (Ok (ListingBody
                {| items := its; count := Z.of_nat (List.length its) |}), st)) /\
  (lower "" = "" -> forall b, ci_match "" b) /\
  (forall f, (forall s, lower s = string_map f s) ->
     forall q s, ci_substring q s <-> ci_part q s) /\
  (reachable st -> forall rqs, uuid4_fresh rqs st ->
     map Book.id (dict_values (books (snd (run rqs st)))) =
     map Book.id (dict_values (books st)) ++ new_book_ids (fst (run rqs st))).
Proof.
  split; [|split; [|split; [|split; [exact ci_substring_part|]]]].
  - intros q [->| ->]; reflexivity.
  - intros q Hq. exists (matches (lower q)), (filter (matches (lower q)) (dict_values (books st))).
    split; [intros b; apply matches_spec|]. split; [reflexivity|]. split.
    + intros b. rewrite filter_In, matches_spec. tauto.
    + destruct q; [congruence | reflexivity].
  - intros He b. left. exists "", (lower (Book.title b)). now rewrite He.
  - intros Hr rqs Hf.
    pose proof (reachable_wf _ Hr) as Hwf.
    pose proof (reachable_wf _ (reachable_run rqs _ Hr)) as Hwf'.
    rewrite (ids_are_keys _ (wf_books _ Hwf)), (ids_are_keys _ (wf_books _ Hwf')).
    now destruct (keys_run _ _ Hf).
Qed.

(** ** What a confirmation touches *)

(** C10: a confirmation answered 200 in a reachable state stores the order
    with its status moved from "pending" to "confirmed" and the book with
    its stock lowered by the quantity, which is more than 0; the other
    fields of the two records keep their values, every record under another
    key is as it was, and the keys of both stores are as they were. *)
Theorem confirm_frame st order_id bd st' :
  reachable st ->
  handle (POST_order_confirm order_id) st = (Ok bd, st') ->
  exists o b o' b',
    dict_get (orders st) order_id = Some o /\
    dict_get (books st) (Order.book_id o) = Some b /\
    bd = ConfirmationBody (mkConfirmation "Pesanan berhasil dikonfirmasi" o' b') /\
    dict_get (orders st') order_id = Some o' /\
    dict_get (books st') (Order.book_id o) = Some b' /\
    (Order.status o = "pending" /\ Order.status o' = "confirmed" /\
     Order.status o' <> Order.status o) /\
    (Book.stock b' = Book.stock b - Order.qty o /\ Book.stock b' <> Book.stock b) /\
    (Order.id o' = Order.id o /\ Order.book_id o' = Order.book_id o /\
     Order.qty o' = Order.qty o /\ Order.customer_name o' = Order.customer_name o) /\
    (Book.id b' = Book.id b /\ Book.title b' = Book.title b /\
     Book.author b' = Book.author b) /\
    (forall k, k <> order_id -> dict_get (orders st') k = dict_get (orders st) k) /\
    (forall k, k <> Order.book_id o -> dict_get (books st') k = dict_get (books st) k) /\
    dict_keys (orders st') = dict_keys (orders st) /\
    dict_keys (books st') = dict_keys (books st).
Proof.
  intros Hr. cbn [handle]. unfold respond.
  destruct (confirm_order order_id st) as [[c|e] st1] eqn:E; simpl; [|discriminate].
  intros [= <- <-].
  destruct (confirm_order_Return _ _ _ _ E) as (o & b & Ho & Hs & Hb & Hq).
  rewrite (confirm_order_success _ _ _ _ Ho Hs Hb Hq) in E.
  injection E as <- <-.
  pose proof (dict_get_Forall _ _ _ _ (wf_orders _ (reachable_wf _ Hr)) Ho)
    as (_ & Hpos & _).
  simpl in Hpos.
  exists o, b, (Order.set_status o "confirmed"),
         (Book.set_stock b (Book.stock b - Order.qty o)).
  simpl. repeat split; auto.
  - apply dict_get_set_eq.
  - apply dict_get_set_eq.
  - rewrite Hs. discriminate.
  - lia.
  - intros k Hk. apply dict_get_set_ne. congruence.
  - intros k Hk. apply dict_get_set_ne. congruence.
  - apply dict_set_present. congruence.
  - apply dict_set_present. congruence.
Qed.

(** * Further properties of the handlers *)

(** ** A refused request writes nothing *)

(** X1: Every [raise] of a handler comes before its first assignment, and the
    payload check comes before the handler: a request that is not answered
    200 leaves both stores as they were, and so does every request to one
    of the three reading routes. *)
Theorem refused_request_writes_nothing rq st :
  (status (fst (handle rq st)) <> 200 -> snd (handle rq st) = st) /\
  (is_read rq = true -> snd (handle rq st) = st).
Proof.
  destruct rq as [uuid p|q|bid|bid p|uuid p|oid|oid]; cbn [handle is_read];
    (split; [|try discriminate]).
  - destruct (BookCreate.errors p); [|reflexivity].
    simpl. congruence.
  - reflexivity.
  - reflexivity.
  - unfold respond, get_book. now destruct (dict_get (books st) bid).
  - unfold respond, get_book. now destruct (dict_get (books st) bid).
  - destruct (BookStockUpdate.errors p); [|reflexivity].
    unfold respond, update_stock.
    destruct (dict_get (books st) bid) as [b|]; [|reflexivity].
    destruct (BookStockUpdate.set_stock p) as [v|],
             (BookStockUpdate.delta p) as [d|]; simpl; try congruence.
    destruct (Book.stock b + d <? 0); simpl; congruence.
  - destruct (OrderCreate.errors p); [|reflexivity].
    unfold respond, create_order.
    destruct (dict_get (books st) (OrderCreate.book_id p)); simpl; congruence.
  - unfold respond, get_order. now destruct (dict_get (orders st) oid).
  - unfold respond, get_order. now destruct (dict_get (orders st) oid).
  - unfold respond, confirm_order.
    destruct (dict_get (orders st) oid) as [o|]; [|reflexivity].
    destruct (String.eqb (Order.status o) "pending"); [|reflexivity].
    simpl. destruct (dict_get (books st) (Order.book_id o)) as [b|]; [|reflexivity].
    destruct (Book.stock b <? Order.qty o); simpl; congruence.
Qed.

(** ** Records are never removed *)

Lemma dict_set_keys_grow {V} (d : dict V) k v :
  exists extra, dict_keys (dict_set d k v) = dict_keys d ++ extra /\
                (List.length extra <= 1)%nat.
Proof.
  destruct (dict_get d k) eqn:E.
  - exists []. rewrite app_nil_r. split; [|simpl; lia].
    apply dict_set_present. congruence.
  - exists [k]. split; [now apply dict_set_fresh_keys | simpl; lia].
Qed.

Lemma grow_refl (l : list string) :
  exists extra, l = l ++ extra /\ (List.length extra <= 1)%nat.
Proof. exists []. rewrite app_nil_r. split; [reflexivity | simpl; lia]. Qed.

(** X2: No handler deletes from a store or reorders it: whatever the request
    and whatever [uuid4()] answers, the keys of [books] after it are the
    keys before it, in the same order, followed by at most one new key, and
    the same holds of [orders]. *)
Theorem keys_only_grow rq st :
  (exists extra,
     dict_keys (books (snd (handle rq st))) = dict_keys (books st) ++ extra /\
     (List.length extra <= 1)%nat) /\
  (exists extra,
     dict_keys (orders (snd (handle rq st))) = dict_keys (orders st) ++ extra /\
     (List.length extra <= 1)%nat).
Proof.
  destruct rq as [uuid p|q|bid|bid p|uuid p|oid|oid]; cbn [handle].
  - destruct (BookCreate.errors p); simpl;
      (split; [|apply grow_refl]); [apply dict_set_keys_grow | apply grow_refl].
  - simpl. split; apply grow_refl.
  - rewrite snd_respond. unfold get_book.
    destruct (dict_get (books st) bid); simpl; split; apply grow_refl.
  - destruct (BookStockUpdate.errors p); [rewrite snd_respond|];
      [|split; apply grow_refl].
    unfold update_stock. destruct (dict_get (books st) bid) as [b|];
      [|split; apply grow_refl].
    destruct (BookStockUpdate.set_stock p) as [v|],
             (BookStockUpdate.delta p) as [d|]; simpl;
      try (split; apply grow_refl).
    + split; [apply dict_set_keys_grow | apply grow_refl].
    + destruct (Book.stock b + d <? 0); simpl;
        (split; [|apply grow_refl]); [apply grow_refl | apply dict_set_keys_grow].
  - destruct (OrderCreate.errors p); [rewrite snd_respond|];
      [|split; apply grow_refl].
    unfold create_order.
    destruct (dict_get (books st) (OrderCreate.book_id p)); simpl;
      (split; [apply grow_refl|]); [apply dict_set_keys_grow | apply grow_refl].
  - rewrite snd_respond. unfold get_order.
    destruct (dict_get (orders st) oid); simpl; split; apply grow_refl.
  - rewrite snd_respond. unfold confirm_order.
    destruct (dict_get (orders st) oid) as [o|]; [|split; apply grow_refl].
    destruct (String.eqb (Order.status o) "pending"); simpl;
      [|split; apply grow_refl].
    destruct (dict_get (books st) (Order.book_id o)) as [b|];
      [|split; apply grow_refl].
    destruct (Book.stock b <? Order.qty o); simpl;
      [split; apply grow_refl|].
    split; apply dict_set_keys_grow.
Qed.

(** ** What can change in a stored record *)

(** X3: With the [uuid4()] of the request answered by an identifier not in use,
    a stored book is still stored under its key after any request, with the
    identifier, title and author it had; its stock is another only after a
    stock update of that book or the confirmation of an order of that book,
    which lowers it by the quantity of the order. *)
Theorem book_fields_fixed rq st k b :
  dict_get (books st) k = Some b ->
  uuid4_fresh1 rq st ->
  exists b',
    dict_get (books (snd (handle rq st))) k = Some b' /\
    Book.id b' = Book.id b /\ Book.title b' = Book.title b /\
    Book.author b' = Book.author b /\
    (Book.stock b' <> Book.stock b ->
       is_stock_update k rq = true \/
       exists oid o, rq = POST_order_confirm oid /\
                     dict_get (orders st) oid = Some o /\
                     Order.book_id o = k /\
                     Book.stock b' = Book.stock b - Order.qty o).
Proof.
  intros Hb Hf.
  assert (Same : forall st', books st' = books st ->
            exists b', dict_get (books st') k = Some b' /\
              Book.id b' = Book.id b /\ Book.title b' = Book.title b /\
              Book.author b' = Book.author b /\
              (Book.stock b' <> Book.stock b ->
                 is_stock_update k rq = true \/
                 exists oid o, rq = POST_order_confirm oid /\
                               dict_get (orders st) oid = Some o /\
                               Order.book_id o = k /\
                               Book.stock b' = Book.stock b - Order.qty o)).
  { intros st' E. exists b. rewrite E. repeat split; auto; congruence. }
  destruct rq as [uuid p|q|bid|bid p|uuid p|oid|oid]; cbn [handle].
  - destruct (BookCreate.errors p) eqn:E; [|now apply Same].
    rewrite snd_respond. simpl in Hf. specialize (Hf E).
    exists b. simpl. rewrite dict_get_set_ne by congruence.
    repeat split; auto; congruence.
  - now apply Same.
  - apply Same. rewrite snd_respond. unfold get_book.
    now destruct (dict_get (books st) bid).
  - destruct (BookStockUpdate.errors p); [rewrite snd_respond|now apply Same].
    unfold update_stock.
    destruct (dict_get (books st) bid) as [b0|] eqn:Hb0; [|now apply Same].
    destruct (String.eqb_spec bid k) as [->|Hne].
    + assert (b0 = b) by congruence. subst b0.
      destruct (BookStockUpdate.set_stock p) as [v|],
               (BookStockUpdate.delta p) as [d|]; try now apply Same.
      * exists (Book.set_stock b v). simpl. rewrite dict_get_set_eq.
        repeat split; auto. intros _. left. apply String.eqb_refl.
      * destruct (Book.stock b + d <? 0); [now apply Same|].
        exists (Book.set_stock b (Book.stock b + d)). simpl.
        rewrite dict_get_set_eq. repeat split; auto.
        intros _. left. apply String.eqb_refl.
    + destruct (BookStockUpdate.set_stock p) as [v|],
               (BookStockUpdate.delta p) as [d|]; try now apply Same.
      * exists b. simpl. rewrite dict_get_set_ne by assumption.
        repeat split; auto; congruence.
      * destruct (Book.stock b0 + d <? 0); [now apply Same|].
        exists b. simpl. rewrite dict_get_set_ne by assumption.
        repeat split; auto; congruence.
  - apply Same. destruct (OrderCreate.errors p); [rewrite snd_respond|reflexivity].
    unfold create_order.
    now destruct (dict_get (books st) (OrderCreate.book_id p)).
  - apply Same. rewrite snd_respond. unfold get_order.
    now destruct (dict_get (orders st) oid).
  - rewrite snd_respond. unfold confirm_order.
    destruct (dict_get (orders st) oid) as [o|] eqn:Ho; [|now apply Same].
    destruct (String.eqb (Order.status o) "pending"); simpl; [|now apply Same].
    destruct (dict_get (books st) (Order.book_id o)) as [b0|] eqn:Hb0;
      [|now apply Same].
    destruct (Book.stock b0 <? Order.qty o); [now apply Same|]. simpl.
    destruct (String.eqb_spec (Order.book_id o) k) as [Hk|Hne].
    + rewrite Hk in *. assert (b0 = b) by congruence. subst b0.
      exists (Book.set_stock b (Book.stock b - Order.qty o)).
      rewrite dict_get_set_eq. repeat split; auto.
      intros _. right. exists oid, o. auto.
    + exists b. rewrite dict_get_set_ne by assumption.
      repeat split; auto; congruence.
Qed.

(** X4: With the [uuid4()] of the request answered by an identifier not in use,
    a stored order is, after any request, stored under its key as it was,
    or, when the request was the confirmation of that order and the order
    was pending, as it was but for the status "confirmed": no route changes
    the book, the quantity or the customer of an order. *)
Theorem order_fields_fixed rq st k o :
  dict_get (orders st) k = Some o ->
  uuid4_fresh1 rq st ->
  dict_get (orders (snd (handle rq st))) k = Some o \/
  (rq = POST_order_confirm k /\ Order.status o = "pending" /\
   dict_get (orders (snd (handle rq st))) k =
     Some (Order.set_status o "confirmed")).
Proof.
  intros Ho Hf.
  destruct rq as [uuid p|q|bid|bid p|uuid p|oid|oid]; cbn [handle].
  - left. now destruct (BookCreate.errors p).
  - now left.
  - left. rewrite snd_respond. unfold get_book.
    now destruct (dict_get (books st) bid).
  - left. destruct (BookStockUpdate.errors p); [rewrite snd_respond|assumption].
    unfold update_stock. destruct (dict_get (books st) bid) as [b|]; [|assumption].
    destruct (BookStockUpdate.set_stock p) as [v|],
             (BookStockUpdate.delta p) as [d|]; simpl; auto.
    now destruct (Book.stock b + d <? 0).
  - left. destruct (OrderCreate.errors p) eqn:E; [rewrite snd_respond|assumption].
    unfold create_order. simpl in Hf. specialize (Hf E).
    destruct (dict_get (books st) (OrderCreate.book_id p)); [|assumption].
    simpl. rewrite dict_get_set_ne; [assumption|].
    intros ->. rewrite Hf in Ho; discriminate.
  - left. rewrite snd_respond. unfold get_order.
    now destruct (dict_get (orders st) oid).
  - rewrite snd_respond. unfold confirm_order.
    destruct (String.eqb_spec oid k) as [->|Hne].
    + rewrite Ho.
      destruct (String.eqb_spec (Order.status o) "pending") as [Hs|Hs];
        simpl; [|now left].
      destruct (dict_get (books st) (Order.book_id o)) as [b|]; [|now left].
      destruct (Book.stock b <? Order.qty o); [now left|].
      right. simpl. rewrite dict_get_set_eq. auto.
    + left. destruct (dict_get (orders st) oid) as [o1|]; [|assumption].
      destruct (String.eqb (Order.status o1) "pending"); simpl; [|assumption].
      destruct (dict_get (books st) (Order.book_id o1)) as [b|]; [|assumption].
      destruct (Book.stock b <? Order.qty o1); [assumption|].
      simpl. now rewrite dict_get_set_ne.
Qed.

(** ** Orders keep pointing at a stored book *)

Lemma dict_set_keeps_key {V} (d : dict V) k k' v :
  dict_get d k <> None -> dict_get (dict_set d k' v) k <> None.
Proof.
  intros H. destruct (String.eqb_spec k' k) as [->|Hne].
  - rewrite dict_get_set_eq. discriminate.
  - now rewrite dict_get_set_ne.
Qed.

Lemma linked_init : linked init.
Proof. split; constructor. Qed.

Lemma linked_set_book st k b' :
  linked st -> book_named (k, b') ->
  linked {| books := dict_set (books st) k b'; orders := orders st |}.
Proof.
  intros [Hb Ho] Hn. split; simpl.
  - now apply dict_set_Forall.
  - eapply Forall_impl; [|exact Ho]. intros ko [Hc Hl]. split; [exact Hc|].
    simpl. now apply dict_set_keeps_key.
Qed.

Lemma linked_set_order st k o' :
  linked st -> order_linked st (k, o') ->
  linked {| books := books st; orders := dict_set (orders st) k o' |}.
Proof.
  intros [Hb Ho] Hl. split; simpl; [exact Hb|]. now apply dict_set_Forall.
Qed.

Lemma handle_linked rq st : linked st -> linked (snd (handle rq st)).
Proof.
  intros Hl. destruct rq as [uuid p|q|bid|bid p|uuid p|oid|oid]; cbn [handle].
  - destruct (BookCreate.errors p) eqn:E; [|exact Hl].
    apply BookCreate_errors_nil in E. destruct E as (Ht & Ha & _).
    rewrite snd_respond. apply linked_set_book; [exact Hl | now split].
  - exact Hl.
  - rewrite snd_respond. unfold get_book. now destruct (dict_get (books st) bid).
  - destruct (BookStockUpdate.errors p); [rewrite snd_respond|exact Hl].
    unfold update_stock. destruct (dict_get (books st) bid) as [b|] eqn:Hb;
      [|exact Hl].
    pose proof (dict_get_Forall _ _ _ _ (linked_books _ Hl) Hb) as Hn.
    destruct (BookStockUpdate.set_stock p) as [v|],
             (BookStockUpdate.delta p) as [d|]; simpl; auto.
    + now apply linked_set_book.
    + destruct (Book.stock b + d <? 0); simpl; auto.
      now apply linked_set_book.
  - destruct (OrderCreate.errors p) eqn:E; [rewrite snd_respond|exact Hl].
    apply OrderCreate_errors_nil in E. destruct E as [_ Hc].
    unfold create_order.
    destruct (dict_get (books st) (OrderCreate.book_id p)) eqn:Hb; [|exact Hl].
    simpl. apply linked_set_order; [exact Hl|]. split; simpl; congruence.
  - rewrite snd_respond. unfold get_order. now destruct (dict_get (orders st) oid).
  - rewrite snd_respond. unfold confirm_order.
    destruct (dict_get (orders st) oid) as [o|] eqn:Ho; [|exact Hl].
    destruct (String.eqb (Order.status o) "pending"); simpl; [|exact Hl].
    destruct (dict_get (books st) (Order.book_id o)) as [b|] eqn:Hb; [|exact Hl].
    destruct (Book.stock b <? Order.qty o); [exact Hl|]. simpl.
    pose proof (dict_get_Forall _ _ _ _ (linked_books _ Hl) Hb) as Hn.
    pose proof (dict_get_Forall _ _ _ _ (linked_orders _ Hl) Ho) as [Hc _].
    apply (linked_set_order
             {| books := dict_set (books st) (Order.book_id o)
                           (Book.set_stock b (Book.stock b - Order.qty o));
                orders := orders st |}).
    + now apply linked_set_book.
    + split; simpl; [exact Hc|]. rewrite dict_get_set_eq. discriminate.
Qed.

Lemma reachable_linked st : reachable st -> linked st.
Proof. induction 1; [apply linked_init | now apply handle_linked]. Qed.

(** X5: In every reachable state the book of every stored order is in the
    catalogue: [create_order] stores an order only after it has found the
    book, and no route removes a book.  So the second lookup of
    [confirm_order] always finds the book, and no confirmation is answered
    "Buku pada pesanan tidak ditemukan". *)
Theorem order_book_always_found st :
  reachable st ->
  (forall k o, In (k, o) (orders st) ->
     exists b, dict_get (books st) (Order.book_id o) = Some b) /\
  (forall oid,
     fst (handle (POST_order_confirm oid) st) <>
     Failed (mkHTTPException 404 "Buku pada pesanan tidak ditemukan")).
Proof.
  intros Hr. pose proof (reachable_linked _ Hr) as Hl.
  assert (Hfound : forall k o, In (k, o) (orders st) ->
            exists b, dict_get (books st) (Order.book_id o) = Some b).
  { intros k o Hin. pose proof (linked_orders _ Hl) as Ho.
    rewrite Forall_forall in Ho. destruct (Ho _ Hin) as [_ Hb]. simpl in Hb.
    destruct (dict_get (books st) (Order.book_id o)) as [b|]; [now exists b|].
    contradiction. }
  split; [exact Hfound|].
  intros oid. cbn [handle]. rewrite fst_respond. unfold confirm_order.
  destruct (dict_get (orders st) oid) as [o|] eqn:Ho; [|discriminate].
  destruct (String.eqb (Order.status o) "pending"); simpl; [|discriminate].
  destruct (Hfound _ _ (dict_get_In _ _ _ Ho)) as [b Hb]. rewrite Hb.
  destruct (Book.stock b <? Order.qty o); discriminate.
Qed.

(** X6: In every reachable state each stored book sits under its own
    identifier with a non-empty title, a non-empty author and a stock of at
    least 0, and each stored order sits under its own identifier with a
    quantity above 0, a non-empty customer name and the status "pending" or
    "confirmed": what the payload checks let in is what the stores hold. *)
Theorem stored_records_valid st :
  reachable st ->
  (forall k b, In (k, b) (books st) ->
     Book.id b = k /\ Book.title b <> "" /\ Book.author b <> "" /\
     0 <= Book.stock b) /\
  (forall k o, In (k, o) (orders st) ->
     Order.id o = k /\ 0 < Order.qty o /\ Order.customer_name o <> "" /\
     (Order.status o = "pending" \/ Order.status o = "confirmed")).
Proof.
  intros Hr. pose proof (reachable_linked _ Hr) as [Lb Lo].
  pose proof (reachable_wf _ Hr) as [_ _ Wb Wo].
  rewrite Forall_forall in Lb, Lo, Wb, Wo. split.
  - intros k b Hin. destruct (Lb _ Hin) as [Ht Ha]. destruct (Wb _ Hin) as [Hi Hs].
    simpl in *. auto.
  - intros k o Hin. destruct (Lo _ Hin) as [Hc _].
    destruct (Wo _ Hin) as (Hi & Hq & Hs). simpl in *. auto.
Qed.

(** ** When a confirmation is answered 200 *)

(** X7: In any state, a confirmation is answered 200 exactly when the order is
    stored and pending and its book is stored with a stock that covers the
    quantity.  An unknown order is answered 404, and an order that is not
    pending is answered 400 "Pesanan sudah diproses / bukan pending" before
    the book is looked at, so also when the stock would not cover it. *)
Theorem confirm_answer st oid :
  (status (fst (handle (POST_order_confirm oid) st)) = 200 <->
   exists o b,
     dict_get (orders st) oid = Some o /\ Order.status o = "pending" /\
     dict_get (books st) (Order.book_id o) = Some b /\
     Order.qty o <= Book.stock b) /\
  (dict_get (orders st) oid = None ->
   handle (POST_order_confirm oid) st =
     (Failed (mkHTTPException 404 "Pesanan tidak ditemukan"), st)) /\
  (forall o, dict_get (orders st) oid = Some o ->
     Order.status o <> "pending" ->
     handle (POST_order_confirm oid) st = (Failed already_processed, st)).
Proof.
  split; [|split].
  - cbn [handle]. rewrite fst_respond. split.
    + destruct (confirm_order oid st) as [[c|e] st'] eqn:E; simpl.
      * intros _. now apply (confirm_order_Return _ _ _ _ E).
      * revert E. unfold confirm_order.
        destruct (dict_get (orders st) oid) as [o|]; [|intros [= <- _]; discriminate].
        destruct (String.eqb (Order.status o) "pending"); simpl;
          [|intros [= <- _]; discriminate].
        destruct (dict_get (books st) (Order.book_id o)) as [b|];
          [|intros [= <- _]; discriminate].
        destruct (Book.stock b <? Order.qty o); [|discriminate].
        intros [= <- _]; discriminate.
    + intros (o & b & Ho & Hs & Hb & Hq).
      now rewrite (confirm_order_success _ _ _ _ Ho Hs Hb Hq).
  - intros Ho. cbn [handle]. unfold respond, confirm_order. now rewrite Ho.
  - intros o Ho Hs. cbn [handle]. unfold respond.
    now rewrite (confirm_order_not_pending _ _ _ Ho Hs).
Qed.

(** ** Creating, then fetching *)

(** X8: A book creation whose payload passes the checks is answered 200 with
    the book made of the answer of [uuid4()] and the three fields of the
    payload; fetching that identifier next returns the same book, and
    fetching any other identifier is answered as before the creation.  An
    identifier under which nothing is stored is answered 404. *)
Theorem create_book_then_get uuid p st :
  BookCreate.title p <> "" -> BookCreate.author p <> "" ->
  0 <= BookCreate.stock p ->
  exists b st1,
    b = Book.mk uuid (BookCreate.title p) (BookCreate.author p)
          (BookCreate.stock p) /\
    handle (POST_books uuid p) st = (Ok (BookBody b), st1) /\
    handle (GET_book uuid) st1 = (Ok (BookBody b), st1) /\
    (forall k, k <> uuid ->
       fst (handle (GET_book k) st1) = fst (handle (GET_book k) st)) /\
    (forall k, dict_get (books st1) k = None ->
       handle (GET_book k) st1 =
         (Failed (mkHTTPException 404 "Buku tidak ditemukan"), st1)).
Proof.
  intros Ht Ha Hs.
  assert (E : BookCreate.errors p = []) by now apply BookCreate_errors_nil.
  do 2 eexists. split; [reflexivity|]. cbn [handle]. rewrite E.
  split; [reflexivity|]. unfold respond, get_book. simpl.
  rewrite dict_get_set_eq. split; [reflexivity|]. split.
  - intros k Hk. rewrite dict_get_set_ne by congruence.
    now destruct (dict_get (books st) k).
  - intros k Hk. now rewrite Hk.
Qed.

(** X9: An order creation whose payload passes the checks and names a stored
    book is answered 200 with the pending order made of the answer of
    [uuid4()] and the three fields of the payload; fetching that identifier
    next returns the same order, and fetching any other identifier is
    answered as before.  An identifier under which nothing is stored is
    answered 404. *)
Theorem create_order_then_get uuid p st b :
  0 < OrderCreate.qty p -> OrderCreate.customer_name p <> "" ->
  dict_get (books st) (OrderCreate.book_id p) = Some b ->
  exists o st1,
    o = Order.mk uuid (OrderCreate.book_id p) (OrderCreate.qty p)
          (OrderCreate.customer_name p) "pending" /\
    handle (POST_orders uuid p) st = (Ok (OrderBody o), st1) /\
    handle (GET_order uuid) st1 = (Ok (OrderBody o), st1) /\
    (forall k, k <> uuid ->
       fst (handle (GET_order k) st1) = fst (handle (GET_order k) st)) /\
    (forall k, dict_get (orders st1) k = None ->
       handle (GET_order k) st1 =
         (Failed (mkHTTPException 404 "Pesanan tidak ditemukan"), st1)).
Proof.
  intros Hq Hc Hb.
  assert (E : OrderCreate.errors p = []) by now apply OrderCreate_errors_nil.
  do 2 eexists. split; [reflexivity|]. cbn [handle]. rewrite E.
  unfold respond, create_order. rewrite Hb. simpl.
  split; [reflexivity|]. unfold get_order. simpl.
  rewrite dict_get_set_eq. split; [reflexivity|]. split.
  - intros k Hk. rewrite dict_get_set_ne by congruence.
    now destruct (dict_get (orders st) k).
  - intros k Hk. now rewrite Hk.
Qed.

(** ** Stock updates that go through *)

(** X10: On a stored book, an update that sets a stock of at least 0, or adds a
    [delta] that leaves at least 0, is answered 200 with the book carrying
    the new stock and its other fields as they were; that book is what a
    fetch then returns, every other book is as it was, no key is added and
    the orders are untouched. *)
Theorem update_stock_writes st bid b p new_stock :
  dict_get (books st) bid = Some b ->
  (BookStockUpdate.delta p = None /\
   BookStockUpdate.set_stock p = Some new_stock /\ 0 <= new_stock) \/
  (BookStockUpdate.set_stock p = None /\
   (exists d, BookStockUpdate.delta p = Some d /\
              new_stock = Book.stock b + d) /\ 0 <= new_stock) ->
  exists b' st',
    handle (PATCH_book_stock bid p) st = (Ok (BookBody b'), st') /\
    b' = Book.mk (Book.id b) (Book.title b) (Book.author b) new_stock /\
    handle (GET_book bid) st' = (Ok (BookBody b'), st') /\
    (forall k, k <> bid -> dict_get (books st') k = dict_get (books st) k) /\
    dict_keys (books st') = dict_keys (books st) /\
    orders st' = orders st.
Proof.
  intros Hb Hp.
  assert (Hh : handle (PATCH_book_stock bid p) st =
               (Ok (BookBody (Book.set_stock b new_stock)),
                {| books := dict_set (books st) bid (Book.set_stock b new_stock);
                   orders := orders st |})).
  { cbn [handle]. unfold BookStockUpdate.errors, respond, update_stock.
    destruct Hp as [(Hd & Hs & Hv)|(Hs & (d & Hd & ->) & Hv)]; rewrite Hs.
    - destruct (Z.ltb_spec new_stock 0); [lia|]. now rewrite Hb, Hd.
    - rewrite Hb, Hd.
      destruct (Z.ltb_spec (Book.stock b + d) 0); [lia | reflexivity]. }
  do 2 eexists. split; [exact Hh|]. split; [reflexivity|].
  cbn [handle]. unfold respond, get_book. simpl. rewrite dict_get_set_eq.
  split; [reflexivity|]. split; [|split; [|reflexivity]].
  - intros k Hk. apply dict_get_set_ne. congruence.
  - apply dict_set_present. congruence.
Qed.

(** X11: On an identifier under which no book is stored, a stock update is
    answered 404 whatever it asks for, be it neither field or both, unless
    its [set_stock] is negative, which the payload check answers 422 first;
    the stores are left as they were. *)
Theorem update_stock_unknown_book st bid p :
  dict_get (books st) bid = None ->
  ((forall v, BookStockUpdate.set_stock p = Some v -> 0 <= v) ->
   handle (PATCH_book_stock bid p) st =
     (Failed (mkHTTPException 404 "Buku tidak ditemukan"), st)) /\
  (forall v, BookStockUpdate.set_stock p = Some v -> v < 0 ->
   handle (PATCH_book_stock bid p) st = (Unprocessable ["set_stock"], st)).
Proof.
  intros Hb. split.
  - intros Hv. apply BookStockUpdate_errors_nil in Hv. cbn [handle].
    rewrite Hv. unfold respond, update_stock. now rewrite Hb.
  - intros v Hs Hv. cbn [handle]. unfold BookStockUpdate.errors. rewrite Hs.
    destruct (Z.ltb_spec v 0); [reflexivity | lia].
Qed.

(** ** Updates by delta add up *)

Lemma dict_set_set {V} (d : dict V) k v1 v2 :
  dict_set (dict_set d k v1) k v2 = dict_set d k v2.
Proof.
  induction d as [|[k0 v0] d IH]; simpl.
  - now rewrite String.eqb_refl.
  - destruct (String.eqb k0 k) eqn:E; simpl; rewrite E; [reflexivity|].
    now rewrite IH.
Qed.

Lemma dict_set_same {V} (d : dict V) k v :
  dict_get d k = Some v -> dict_set d k v = d.
Proof.
  induction d as [|[k0 v0] d IH]; simpl; [discriminate|].
  destruct (String.eqb_spec k0 k) as [->|Hne].
  - now intros [= ->].
  - intros H. now rewrite IH.
Qed.

Lemma by_delta_writes st bid b d :
  dict_get (books st) bid = Some b -> 0 <= Book.stock b + d ->
  handle (PATCH_book_stock bid (by_delta d)) st =
  (Ok (BookBody (Book.set_stock b (Book.stock b + d))),
   {| books := dict_set (books st) bid (Book.set_stock b (Book.stock b + d));
      orders := orders st |}).
Proof.
  intros Hb Hd. cbn [handle]. unfold respond, update_stock. simpl. rewrite Hb.
  destruct (Z.ltb_spec (Book.stock b + d) 0); [lia | reflexivity].
Qed.

(** X12: On a stored book, two updates by [delta] that both leave a stock of at
    least 0 end in the stores, and the second is answered with the book,
    of the single update by the sum of the two; so an update by [d]
    followed by an update by [-d] gives back the stores as they were. *)
Theorem delta_updates_add_up st bid b d1 d2 :
  dict_get (books st) bid = Some b ->
  0 <= Book.stock b + d1 ->
  0 <= Book.stock b + d1 + d2 ->
  handle (PATCH_book_stock bid (by_delta d2))
    (snd (handle (PATCH_book_stock bid (by_delta d1)) st))
  = handle (PATCH_book_stock bid (by_delta (d1 + d2))) st /\
  (d2 = - d1 ->
   snd (handle (PATCH_book_stock bid (by_delta d2))
          (snd (handle (PATCH_book_stock bid (by_delta d1)) st))) = st).
Proof.
  intros Hb H1 H2.
  rewrite (by_delta_writes _ _ _ d1 Hb H1). cbn [snd].
  assert (Hb1 : dict_get
                  (books {| books := dict_set (books st) bid
                                       (Book.set_stock b (Book.stock b + d1));
                            orders := orders st |}) bid
                = Some (Book.set_stock b (Book.stock b + d1)))
    by apply dict_get_set_eq.
  rewrite (by_delta_writes _ _ _ d2 Hb1) by exact H2.
  rewrite (by_delta_writes _ _ _ (d1 + d2) Hb) by lia.
  simpl. rewrite dict_set_set.
  replace (Book.stock b + d1 + d2) with (Book.stock b + (d1 + d2)) by lia.
  split; [reflexivity|].
  intros ->. replace (Book.stock b + (d1 + - d1)) with (Book.stock b) by lia.
  assert (Eb : Book.set_stock b (Book.stock b) = b) by now destruct b.
  unfold Book.set_stock in *. simpl. rewrite Eb.
  rewrite (dict_set_same _ _ _ Hb). now destruct st.
Qed.

(** ** Copies are accounted for *)

Lemma total_set (f : Order.t -> Z) (d : dict Order.t) k o o' :
  dict_get d k = Some o ->
  fold_right (fun x acc => f x + acc) 0 (dict_values (dict_set d k o')) =
  fold_right (fun x acc => f x + acc) 0 (dict_values d) - f o + f o'.
Proof.
  induction d as [|[k0 v0] d IH]; simpl; [discriminate|].
  destruct (String.eqb_spec k0 k) as [->|Hne]; simpl.
  - intros [= ->]. lia.
  - intros H. rewrite (IH H). lia.
Qed.

Lemma total_new (f : Order.t -> Z) (d : dict Order.t) k o' :
  dict_get d k = None ->
  fold_right (fun x acc => f x + acc) 0 (dict_values (dict_set d k o')) =
  fold_right (fun x acc => f x + acc) 0 (dict_values d) + f o'.
Proof.
  induction d as [|[k0 v0] d IH]; simpl; [lia|].
  destruct (String.eqb_spec k0 k) as [->|Hne]; simpl; [discriminate|].
  intros H. rewrite (IH H). lia.
Qed.

Lemma accounting_step rq st bid b :
  dict_get (books st) bid = Some b ->
  uuid4_fresh1 rq st ->
  is_stock_update bid rq = false ->
  exists b',
    dict_get (books (snd (handle rq st))) bid = Some b' /\
    Book.stock b' + confirmed_qty bid (snd (handle rq st)) =
    Book.stock b + confirmed_qty bid st.
Proof.
  intros Hb Hf Hu.
  assert (Same : forall st', books st' = books st -> orders st' = orders st ->
            exists b', dict_get (books st') bid = Some b' /\
              Book.stock b' + confirmed_qty bid st' =
              Book.stock b + confirmed_qty bid st).
  { intros st' Eb Eo. exists b. unfold confirmed_qty. now rewrite Eb, Eo. }
  destruct rq as [uuid p|q|k|k p|uuid p|oid|oid]; cbn [handle].
  - destruct (BookCreate.errors p) eqn:E; [|now apply Same].
    rewrite snd_respond. simpl in Hf. specialize (Hf E).
    exists b. simpl. rewrite dict_get_set_ne by congruence. now split.
  - now apply Same.
  - rewrite snd_respond. unfold get_book.
    destruct (dict_get (books st) k); now apply Same.
  - simpl in Hu. apply String.eqb_neq in Hu.
    destruct (BookStockUpdate.errors p); [rewrite snd_respond|now apply Same].
    unfold update_stock.
    destruct (dict_get (books st) k) as [b0|]; [|now apply Same].
    destruct (BookStockUpdate.set_stock p) as [v|],
             (BookStockUpdate.delta p) as [d|]; try now apply Same.
    + exists b. simpl. rewrite dict_get_set_ne by assumption. now split.
    + destruct (Book.stock b0 + d <? 0); [now apply Same|].
      exists b. simpl. rewrite dict_get_set_ne by assumption. now split.
  - destruct (OrderCreate.errors p) eqn:E; [rewrite snd_respond|now apply Same].
    unfold create_order. simpl in Hf. specialize (Hf E).
    destruct (dict_get (books st) (OrderCreate.book_id p)) eqn:Hp;
      [|now apply Same].
    specialize (Hf ltac:(discriminate)).
    exists b. simpl. split; [exact Hb|]. unfold confirmed_qty. simpl.
    rewrite (total_new _ _ _ _ Hf). unfold confirmed_qty_of. simpl.
    rewrite andb_false_r. lia.
  - rewrite snd_respond. unfold get_order.
    destruct (dict_get (orders st) oid); now apply Same.
  - rewrite snd_respond. unfold confirm_order.
    destruct (dict_get (orders st) oid) as [o|] eqn:Ho; [|now apply Same].
    destruct (String.eqb_spec (Order.status o) "pending") as [Hs|Hs]; simpl;
      [|now apply Same].
    destruct (dict_get (books st) (Order.book_id o)) as [b0|] eqn:Hb0;
      [|now apply Same].
    destruct (Book.stock b0 <? Order.qty o); [now apply Same|]. simpl.
    unfold confirmed_qty. simpl. rewrite (total_set _ _ _ _ _ Ho).
    unfold confirmed_qty_of at 2 3. simpl. rewrite Hs. simpl.
    rewrite andb_false_r, andb_true_r.
    destruct (String.eqb_spec (Order.book_id o) bid) as [Hk|Hne].
    + rewrite Hk in *. assert (b0 = b) by congruence. subst b0.
      exists (Book.set_stock b (Book.stock b - Order.qty o)).
      rewrite dict_get_set_eq. split; [reflexivity|]. simpl. lia.
    + exists b. rewrite dict_get_set_ne by assumption.
      split; [exact Hb|]. lia.
Qed.

(** X13: Over a run with every [uuid4()] answered by an identifier not in use
    and with no stock update of a given stored book, the stock of the book
    plus the quantities of the confirmed orders of that book is at the end
    what it was at the start: each confirmation moves its quantity from the
    one to the other.  From a reachable state, then, the orders confirmed
    in the run take no more copies than the stock had at its start. *)
Theorem copies_accounted_for rqs st bid b :
  dict_get (books st) bid = Some b ->
  uuid4_fresh rqs st ->
  forallb (fun rq => negb (is_stock_update bid rq)) rqs = true ->
  exists b',
    dict_get (books (snd (run rqs st))) bid = Some b' /\
    Book.stock b' + confirmed_qty bid (snd (run rqs st)) =
    Book.stock b + confirmed_qty bid st /\
    (reachable st ->
     confirmed_qty bid (snd (run rqs st)) - confirmed_qty bid st
     <= Book.stock b).
Proof.
  intros Hb Hf Hn.
  assert (Hmain : exists b',
            dict_get (books (snd (run rqs st))) bid = Some b' /\
            Book.stock b' + confirmed_qty bid (snd (run rqs st)) =
            Book.stock b + confirmed_qty bid st).
  { revert st b Hb Hf. induction rqs as [|rq rqs IH]; intros st b Hb Hf.
    - exists b. now split.
    - destruct Hf as [Hf1 Hf]. simpl in Hn. apply andb_true_iff in Hn.
      destruct Hn as [Hn1 Hn]. apply negb_true_iff in Hn1.
      destruct (accounting_step _ _ _ _ Hb Hf1 Hn1) as (b1 & Hb1 & E1).
      destruct (IH Hn _ _ Hb1 Hf) as (b2 & Hb2 & E2).
      rewrite run_cons. cbn [snd]. exists b2. split; [exact Hb2 | lia]. }
  destruct Hmain as (b' & Hb' & E). exists b'. split; [exact Hb'|].
  split; [exact E|]. intros Hr.
  pose proof (reachable_wf _ (reachable_run rqs _ Hr)) as Hwf.
  pose proof (dict_get_Forall _ _ _ _ (wf_books _ Hwf) Hb') as [_ Hs].
  simpl in Hs. lia.
Qed.

(** ** A created book in the listing *)

(** X14: After a book creation that passes the checks, with [uuid4()] answered
    by an identifier not in use, the listing without a query is the listing
    before the creation followed by the new book, with a count one higher;
    the listing for a non-empty query is the one before, followed by the
    new book when its title or author has the query in it, case ignored,
    and the one before otherwise. *)
Theorem created_book_listed_last uuid p st :
  BookCreate.errors p = [] ->
  dict_get (books st) uuid = None ->
  exists b st1,
    handle (POST_books uuid p) st = (Ok (BookBody b), st1) /\
    (forall its n,
       fst (handle (GET_books None) st) =
         Ok (ListingBody {| items := its; count := n |}) ->
       fst (handle (GET_books None) st1) =
         Ok (ListingBody {| items := its ++ [b]; count := n + 1 |})) /\
    (forall q its n,
       q <> "" ->
       fst (handle (GET_books (Some q)) st) =
         Ok (ListingBody {| items := its; count := n |}) ->
       (ci_match q b ->
        fst (handle (GET_books (Some q)) st1) =
          Ok (ListingBody {| items := its ++ [b]; count := n + 1 |})) /\
       (~ ci_match q b ->
        fst (handle (GET_books (Some q)) st1) =
          Ok (ListingBody {| items := its; count := n |}))).
Proof.
  intros E Hfresh. do 2 eexists. cbn [handle]. rewrite E.
  split; [reflexivity|]. simpl.
  rewrite (dict_set_absent _ _ _ Hfresh). unfold dict_values.
  rewrite map_app. simpl. split.
  - intros its n [= <- <-]. rewrite length_app. simpl.
    do 3 f_equal. lia.
  - intros q its n Hq. destruct q as [|c q]; [congruence|].
    intros [= <- <-]. rewrite filter_app. simpl.
    split; intros Hm.
    + apply matches_spec in Hm. rewrite Hm. rewrite length_app. simpl.
      do 3 f_equal. lia.
    + destruct (matches (lower (String c q)) _) eqn:Em.
      * exfalso. apply Hm. now apply matches_spec.
      * now rewrite app_nil_r.
Qed.

(** ** The answers of each route *)

(** X15: Whatever the stores hold, a route answers with one of the codes on its
    own paths: the listing always 200, a fetch 200 or 404, a book creation
    200 or 422, an order creation 200, 404 or 422, a confirmation 200, 400
    or 404, a stock update 200, 400, 404 or 422. *)
Theorem answers_by_route rq st :
  In (status (fst (handle rq st))) (route_statuses rq).
Proof.
  destruct rq as [uuid p|q|bid|bid p|uuid p|oid|oid]; cbn [handle route_statuses].
  - destruct (BookCreate.errors p); simpl; auto.
  - simpl. auto.
  - unfold respond, get_book. destruct (dict_get (books st) bid); simpl; auto.
  - destruct (BookStockUpdate.errors p); [|simpl; auto].
    unfold respond, update_stock.
    destruct (dict_get (books st) bid) as [b|]; [|simpl; auto].
    destruct (BookStockUpdate.set_stock p) as [v|],
             (BookStockUpdate.delta p) as [d|]; simpl; auto.
    destruct (Book.stock b + d <? 0); simpl; auto.
  - destruct (OrderCreate.errors p); [|simpl; auto].
    unfold respond, create_order.
    destruct (dict_get (books st) (OrderCreate.book_id p)); simpl; auto.
  - unfold respond, get_order. destruct (dict_get (orders st) oid); simpl; auto.
  - unfold respond, confirm_order.
    destruct (dict_get (orders st) oid) as [o|]; [|simpl; auto].
    destruct (String.eqb (Order.status o) "pending"); simpl; auto.
    destruct (dict_get (books st) (Order.book_id o)) as [b|]; [|simpl; auto].
    destruct (Book.stock b <? Order.qty o); simpl; auto.
Qed.

(** ** Setting the stock overrides *)

(** X16: A stock update that sets a stock of at least 0 forgets the stock
    update of the same book served just before it: whatever that one asked
    for and however it was answered, the answer and the stores are those of
    the setting update served alone. *)
Theorem set_stock_overrides st bid p v :
  0 <= v ->
  handle (PATCH_book_stock bid (by_set_stock v))
    (snd (handle (PATCH_book_stock bid p) st))
  = handle (PATCH_book_stock bid (by_set_stock v)) st.
Proof.
  intros Hv.
  assert (Hset : forall s, handle (PATCH_book_stock bid (by_set_stock v)) s =
            respond BookBody (update_stock bid (by_set_stock v) s)).
  { intros s. cbn [handle]. unfold BookStockUpdate.errors. simpl.
    destruct (Z.ltb_spec v 0); [lia | reflexivity]. }
  rewrite !Hset.
  assert (Hover : forall b x,
            dict_get (books st) bid = Some b ->
            respond BookBody
              (update_stock bid (by_set_stock v)
                 {| books := dict_set (books st) bid (Book.set_stock b x);
                    orders := orders st |})
            = respond BookBody (update_stock bid (by_set_stock v) st)).
  { intros b x Hb. unfold respond, update_stock. simpl.
    rewrite dict_get_set_eq, Hb. simpl. now rewrite dict_set_set. }
  cbn [handle].
  destruct (BookStockUpdate.errors p); [rewrite snd_respond|reflexivity].
  unfold update_stock at 2.
  destruct (dict_get (books st) bid) as [b|] eqn:Hb; [|reflexivity].
  destruct (BookStockUpdate.set_stock p) as [s|],
           (BookStockUpdate.delta p) as [d|]; try reflexivity.
  - now apply Hover.
  - destruct (Book.stock b + d <? 0); [reflexivity | now apply Hover].
Qed.

End Service.

(** * The scenario, through the theorems

    The theorems are used at the scenario, with [ascii_lower] for
    [str.lower]: the titles, authors and queries below are ASCII text. *)

Lemma scenario_reachable : reachable ascii_lower (scenario_state ascii_lower).
Proof. apply reachable_run, reachable_init. Qed.

Example scenario_books :
  books (scenario_state ascii_lower) =
  [(dune_id, dune_book); (foundation_id, foundation_book)].
Proof. reflexivity. Qed.

Example scenario_orders :
  orders (scenario_state ascii_lower) =
  [(order1_id, order1_rec); (order2_id, order2_rec)].
Proof. reflexivity. Qed.

Lemma stock_never_negative_witness :
  stocks_nonneg (scenario_state ascii_lower) /\
  handle ascii_lower
    (PATCH_book_stock dune_id (BookStockUpdate.mk None (Some (-11))))
    (scenario_state ascii_lower)
  = (Failed negative_stock, scenario_state ascii_lower) /\
  handle ascii_lower (POST_order_confirm order2_id) (scenario_state ascii_lower)
  = (Failed insufficient_stock, scenario_state ascii_lower).
Proof.
  destruct (stock_never_negative ascii_lower _ scenario_reachable)
    as (H1 & _ & _ & _ & H5 & H6).
  split; [exact H1|]. split.
  - apply (H5 dune_id dune_book _ (-11)); [reflexivity | reflexivity | reflexivity |].
    simpl. lia.
  - apply (H6 order2_id order2_rec foundation_book);
      [reflexivity | reflexivity | reflexivity |].
    simpl. lia.
Defined.

Lemma confirm_decrements_stock_witness :
  exists o' b' st',
    handle ascii_lower (POST_order_confirm order1_id) (scenario_state ascii_lower) =
      (Ok (ConfirmationBody
             (mkConfirmation "Pesanan berhasil dikonfirmasi" o' b')), st') /\
    Book.stock b' = 10 - 3 /\
    Order.status o' = "confirmed" /\
    dict_get (books st') dune_id = Some b' /\
    dict_get (orders st') order1_id = Some o'.
Proof.
  apply (confirm_decrements_stock ascii_lower (scenario_state ascii_lower)
           order1_id order1_rec dune_book);
    [reflexivity | reflexivity | reflexivity |].
  simpl. lia.
Defined.

Lemma confirm_insufficient_stock_witness :
  exists st',
    handle ascii_lower (POST_order_confirm order2_id) (scenario_state ascii_lower) =
      (Failed insufficient_stock, st') /\
    status (Failed insufficient_stock) = 400 /\
    st' = scenario_state ascii_lower /\
    dict_get (books st') foundation_id = Some foundation_book /\
    (exists o', dict_get (orders st') order2_id = Some o' /\
                Order.status o' = "pending").
Proof.
  apply (confirm_insufficient_stock ascii_lower (scenario_state ascii_lower)
           order2_id order2_rec foundation_book);
    [reflexivity | reflexivity | reflexivity |].
  simpl. lia.
Defined.

Lemma confirm_at_most_once_witness :
  handle ascii_lower (POST_order_confirm order1_id)
    (snd (run ascii_lower aftermath
            (snd (handle ascii_lower (POST_order_confirm order1_id)
                    (scenario_state ascii_lower)))))
  = (Failed already_processed,
     snd (run ascii_lower aftermath
            (snd (handle ascii_lower (POST_order_confirm order1_id)
                    (scenario_state ascii_lower))))) /\
  (confirmations order1_id
     (fst (run ascii_lower (scenario ++ POST_order_confirm order1_id :: aftermath)
             init)) <= 1)%nat.
Proof.
  destruct (confirm_at_most_once ascii_lower order1_id) as [H1 H2]. split.
  - edestruct (H1 (scenario_state ascii_lower)) as (_ & _ & H & _);
      [vm_compute; reflexivity | | exact H].
    fresh_by_evaluation.
  - apply H2. fresh_by_evaluation.
Defined.

(** Why the theorems on identifiers and on confirmation assume
    [uuid4_fresh]: [create_order] assigns [orders[order_id]] without looking
    whether the key is there, so an answer of [uuid4()] that repeated the
    identifier of a confirmed order would store a pending order in its
    place. *)
Example repeated_uuid4_replaces_order :
  dict_get
    (orders
       (snd (run ascii_lower
               [POST_order_confirm order1_id; POST_orders order1_id order1]
               (scenario_state ascii_lower))))
    order1_id
  = Some order1_rec.
Proof. reflexivity. Qed.

Lemma negative_stock_update_refused_witness :
  status (fst (handle ascii_lower
                 (PATCH_book_stock dune_id (BookStockUpdate.mk (Some (-1)) None))
                 (scenario_state ascii_lower))) = 422 /\
  status (fst (handle ascii_lower
                 (PATCH_book_stock dune_id (BookStockUpdate.mk None (Some (-11))))
                 (scenario_state ascii_lower))) = 400.
Proof.
  split.
  - apply (proj1 (negative_stock_update_refused ascii_lower
                    (scenario_state ascii_lower) dune_id dune_book
                    (BookStockUpdate.mk (Some (-1)) None) eq_refl) (-1));
      [reflexivity | lia].
  - apply (proj2 (negative_stock_update_refused ascii_lower
                    (scenario_state ascii_lower) dune_id dune_book
                    (BookStockUpdate.mk None (Some (-11))) eq_refl) (-11));
      [reflexivity | reflexivity | simpl; lia].
Defined.

(** A negative [set_stock] on a stored book is answered 422, not 400. *)
Lemma negative_set_stock_is_422 :
  dict_get (books (scenario_state ascii_lower)) dune_id = Some dune_book /\
  handle ascii_lower
    (PATCH_book_stock dune_id (BookStockUpdate.mk (Some (-1)) None))
    (scenario_state ascii_lower)
  = (Unprocessable ["set_stock"], scenario_state ascii_lower) /\
  status (fst (handle ascii_lower
                 (PATCH_book_stock dune_id (BookStockUpdate.mk (Some (-1)) None))
                 (scenario_state ascii_lower))) <> 400.
Proof. repeat split. vm_compute. discriminate. Qed.

Lemma set_stock_xor_delta_witness :
  handle ascii_lower (PATCH_book_stock dune_id (BookStockUpdate.mk None None))
    (scenario_state ascii_lower)
  = (Failed (mkHTTPException 400 "Isi set_stock atau delta"),
     scenario_state ascii_lower) /\
  handle ascii_lower (PATCH_book_stock dune_id (BookStockUpdate.mk (Some 4) (Some 1)))
    (scenario_state ascii_lower)
  = (Failed (mkHTTPException 400 "Pilih salah satu: set_stock atau delta"),
     scenario_state ascii_lower) /\
  handle ascii_lower
    (PATCH_book_stock dune_id (BookStockUpdate.mk (Some (-1)) (Some 5)))
    (scenario_state ascii_lower)
  = (Unprocessable ["set_stock"], scenario_state ascii_lower).
Proof.
  split; [|split].
  - apply (set_stock_xor_delta ascii_lower (scenario_state ascii_lower) dune_id
             dune_book (BookStockUpdate.mk None None) eq_refl); reflexivity.
  - apply (proj1 (proj2 (set_stock_xor_delta ascii_lower
             (scenario_state ascii_lower) dune_id dune_book
             (BookStockUpdate.mk (Some 4) (Some 1)) eq_refl)) 4 1);
      [reflexivity | reflexivity | lia].
  - apply (proj2 (proj2 (set_stock_xor_delta ascii_lower
             (scenario_state ascii_lower) dune_id dune_book
             (BookStockUpdate.mk (Some (-1)) (Some 5)) eq_refl)) (-1) 5);
      [reflexivity | reflexivity | lia].
Defined.

(** An update that gives both fields, with a negative [set_stock], is
    answered 422, not 400. *)
Lemma both_fields_negative_set_stock_is_422 :
  dict_get (books (scenario_state ascii_lower)) dune_id = Some dune_book /\
  handle ascii_lower
    (PATCH_book_stock dune_id (BookStockUpdate.mk (Some (-1)) (Some 5)))
    (scenario_state ascii_lower)
  = (Unprocessable ["set_stock"], scenario_state ascii_lower) /\
  status (fst (handle ascii_lower
                 (PATCH_book_stock dune_id (BookStockUpdate.mk (Some (-1)) (Some 5)))
                 (scenario_state ascii_lower))) <> 400.
Proof. repeat split. vm_compute. discriminate. Qed.

Lemma create_order_checks_book_only_witness :
  handle ascii_lower
    (POST_orders order3_id (OrderCreate.mk unknown_id 1 "Citra"))
    (scenario_state ascii_lower)
  = (Failed (mkHTTPException 404 "Buku tidak ditemukan"),
     scenario_state ascii_lower) /\
  (exists o st',
     handle ascii_lower (POST_orders order3_id order2) (scenario_state ascii_lower)
     = (Ok (OrderBody o), st') /\
     Order.status o = "pending" /\
     books st' = books (scenario_state ascii_lower)).
Proof.
  split.
  - apply (create_order_checks_book_only ascii_lower (scenario_state ascii_lower)
             order3_id (OrderCreate.mk unknown_id 1 "Citra"));
      [simpl; lia | discriminate | reflexivity].
  - destruct (proj2 (create_order_checks_book_only ascii_lower
                       (scenario_state ascii_lower) order3_id order2
                       ltac:(simpl; lia) ltac:(discriminate))
                foundation_book eq_refl)
      as (o & st' & Hh & Ho & Hb & _).
    exists o, st'. split; [exact Hh|]. split; [now rewrite Ho | exact Hb].
Defined.

Example list_books_dune :
  handle ascii_lower (GET_books (Some "dune")) (scenario_state ascii_lower) =
  (Ok (ListingBody {| items := [dune_book]; count := 1 |}),
   scenario_state ascii_lower).
Proof. reflexivity. Qed.

Lemma list_books_contract_witness :
  (exists its,
     handle ascii_lower (GET_books (Some "dune")) (scenario_state ascii_lower) =
       (Ok (ListingBody {| items := its; count := Z.of_nat (List.length its) |}),
        scenario_state ascii_lower) /\
     its = [dune_book] /\
     (forall b, In b its <->
                In b [dune_book; foundation_book] /\ ci_part ascii_lower "dune" (Book.title b) \/
                In b [dune_book; foundation_book] /\ ci_part ascii_lower "dune" (Book.author b))) /\
  map Book.id (dict_values (books (scenario_state ascii_lower))) =
    [dune_id; foundation_id].
Proof.
  split.
  - destruct (list_books_contract ascii_lower (scenario_state ascii_lower))
      as (_ & H2 & _ & H4 & _).
    destruct (H2 "dune" ltac:(discriminate)) as (keep & its & _ & _ & Hin & Hh).
    exists its. split; [exact Hh|].
    pose proof list_books_dune as He. rewrite Hh in He.
    injection He as He _. split; [exact He|].
    intros b. rewrite Hin. unfold ci_match.
    rewrite !(H4 ascii_lower_char (fun s => eq_refl)). simpl. tauto.
  - destruct (list_books_contract ascii_lower init) as (_ & _ & _ & _ & H5).
    apply (H5 (reachable_init ascii_lower) scenario). fresh_by_evaluation.
Defined.



Lemma confirm_frame_witness :
  exists bd st',
    handle ascii_lower (POST_order_confirm order1_id) (scenario_state ascii_lower)
    = (Ok bd, st') /\
    dict_get (books st') dune_id = Some (Book.mk dune_id "Dune" "Herbert" 7) /\
    dict_get (books st') foundation_id = Some foundation_book /\
    dict_get (orders st') order1_id =
      Some (Order.mk order1_id dune_id 3 "Ayu" "confirmed") /\
    dict_get (orders st') order2_id = Some order2_rec /\
    dict_keys (orders st') = [order1_id; order2_id] /\
    dict_keys (books st') = [dune_id; foundation_id].
Proof.
  edestruct (confirm_frame ascii_lower (scenario_state ascii_lower) order1_id)
    as (o & b & o' & b' & Ho & Hb & _ & Ho' & Hb' & (_ & Hstatus & _) & (Hstock & _)
        & (Hi & Hbi & Hq & Hc) & (Hbid & Hbt & Hba) & Hoth & Hbth & Hko & Hkb);
    [exact scenario_reachable | vm_compute; reflexivity |].
  assert (Eo : order1_rec = o) by (vm_compute in Ho; now injection Ho).
  subst o.
  assert (Eb : dune_book = b) by (vm_compute in Hb; now injection Hb).
  subst b.
  do 2 eexists. split; [vm_compute; reflexivity|].
  split; [|split; [|split; [|split; [|split]]]].
  - transitivity (Some b'); [exact Hb'|].
    destruct b'. cbv in Hstock, Hbid, Hbt, Hba. now subst.
  - transitivity (dict_get (books (scenario_state ascii_lower)) foundation_id);
      [apply Hbth; discriminate | reflexivity].
  - transitivity (Some o'); [exact Ho'|].
    destruct o'. cbv in Hstatus, Hi, Hbi, Hq, Hc. now subst.
  - transitivity (dict_get (orders (scenario_state ascii_lower)) order2_id);
      [apply Hoth; discriminate | reflexivity].
  - transitivity (dict_keys (orders (scenario_state ascii_lower)));
      [exact Hko | reflexivity].
  - transitivity (dict_keys (books (scenario_state ascii_lower)));
      [exact Hkb | reflexivity].
Defined.

(** * The scenario, through the further properties *)

Lemma refused_request_writes_nothing_witness :
  snd (handle ascii_lower (PATCH_book_stock dune_id (by_delta (-11)))
         (scenario_state ascii_lower))
  = scenario_state ascii_lower /\
  snd (handle ascii_lower (GET_books (Some "dune")) (scenario_state ascii_lower))
  = scenario_state ascii_lower.
Proof.
  split.
  - apply (proj1 (refused_request_writes_nothing ascii_lower
                    (PATCH_book_stock dune_id (by_delta (-11)))
                    (scenario_state ascii_lower))).
    vm_compute. discriminate.
  - apply (proj2 (refused_request_writes_nothing ascii_lower
                    (GET_books (Some "dune")) (scenario_state ascii_lower))).
    reflexivity.
Defined.

Lemma book_fields_fixed_witness :
  exists b',
    dict_get (books (snd (handle ascii_lower (POST_order_confirm order1_id)
                            (scenario_state ascii_lower)))) dune_id = Some b' /\
    Book.id b' = dune_id /\ Book.title b' = "Dune" /\
    Book.author b' = "Herbert".
Proof.
  destruct (book_fields_fixed ascii_lower (POST_order_confirm order1_id)
              (scenario_state ascii_lower) dune_id dune_book eq_refl I)
    as (b' & Hb & Hi & Ht & Ha & _).
  exists b'. auto.
Defined.

Lemma order_fields_fixed_witness :
  dict_get (orders (snd (handle ascii_lower (POST_order_confirm order1_id)
                           (scenario_state ascii_lower)))) order2_id
  = Some order2_rec.
Proof.
  destruct (order_fields_fixed ascii_lower (POST_order_confirm order1_id)
              (scenario_state ascii_lower) order2_id order2_rec eq_refl I)
    as [H|(H & _)]; [exact H | discriminate H].
Defined.

Lemma order_book_always_found_witness :
  exists b,
    dict_get (books (scenario_state ascii_lower)) (Order.book_id order2_rec)
    = Some b.
Proof.
  apply (proj1 (order_book_always_found ascii_lower _ scenario_reachable)
           order2_id order2_rec).
  right. left. reflexivity.
Defined.

Lemma stored_records_valid_witness :
  Order.id order2_rec = order2_id /\ 0 < Order.qty order2_rec /\
  Order.customer_name order2_rec <> "" /\
  (Order.status order2_rec = "pending" \/ Order.status order2_rec = "confirmed").
Proof.
  apply (proj2 (stored_records_valid ascii_lower _ scenario_reachable)
           order2_id order2_rec).
  right. left. reflexivity.
Defined.

Lemma confirm_answer_witness :
  status (fst (handle ascii_lower (POST_order_confirm order1_id)
                 (scenario_state ascii_lower))) = 200 /\
  handle ascii_lower (POST_order_confirm unknown_id) (scenario_state ascii_lower)
  = (Failed (mkHTTPException 404 "Pesanan tidak ditemukan"),
     scenario_state ascii_lower).
Proof.
  destruct (confirm_answer ascii_lower (scenario_state ascii_lower) order1_id)
    as [[_ H200] _].
  destruct (confirm_answer ascii_lower (scenario_state ascii_lower) unknown_id)
    as (_ & H404 & _).
  split.
  - apply H200. exists order1_rec, dune_book.
    repeat split; try reflexivity. simpl. lia.
  - apply H404. reflexivity.
Defined.

Lemma create_book_then_get_witness :
  exists b st1,
    b = Book.mk unknown_id "Foundation" "Asimov" 2 /\
    handle ascii_lower (POST_books unknown_id foundation) (scenario_state ascii_lower)
    = (Ok (BookBody b), st1) /\
    handle ascii_lower (GET_book unknown_id) st1 = (Ok (BookBody b), st1).
Proof.
  destruct (create_book_then_get ascii_lower unknown_id foundation
              (scenario_state ascii_lower))
    as (b & st1 & Eb & Hp & Hg & _).
  - discriminate.
  - discriminate.
  - simpl. lia.
  - exists b, st1. auto.
Defined.

Lemma create_order_then_get_witness :
  exists o st1,
    o = Order.mk order3_id foundation_id 5 "Budi" "pending" /\
    handle ascii_lower (POST_orders order3_id order2) (scenario_state ascii_lower)
    = (Ok (OrderBody o), st1) /\
    handle ascii_lower (GET_order order3_id) st1 = (Ok (OrderBody o), st1).
Proof.
  destruct (create_order_then_get ascii_lower order3_id order2
              (scenario_state ascii_lower) foundation_book)
    as (o & st1 & Eo & Hp & Hg & _).
  - simpl. lia.
  - discriminate.
  - reflexivity.
  - exists o, st1. auto.
Defined.

Lemma update_stock_writes_witness :
  exists b' st',
    handle ascii_lower
      (PATCH_book_stock dune_id (BookStockUpdate.mk (Some 4) None))
      (scenario_state ascii_lower)
    = (Ok (BookBody b'), st') /\
    b' = Book.mk dune_id "Dune" "Herbert" 4 /\
    handle ascii_lower (GET_book dune_id) st' = (Ok (BookBody b'), st').
Proof.
  destruct (update_stock_writes ascii_lower (scenario_state ascii_lower) dune_id
              dune_book (BookStockUpdate.mk (Some 4) None) 4 eq_refl)
    as (b' & st' & Hp & Eb & Hg & _).
  - left. repeat split. lia.
  - exists b', st'. auto.
Defined.

Lemma update_stock_unknown_book_witness :
  handle ascii_lower (PATCH_book_stock unknown_id (BookStockUpdate.mk None None))
    (scenario_state ascii_lower)
  = (Failed (mkHTTPException 404 "Buku tidak ditemukan"),
     scenario_state ascii_lower).
Proof.
  apply (proj1 (update_stock_unknown_book ascii_lower
                  (scenario_state ascii_lower) unknown_id
                  (BookStockUpdate.mk None None) eq_refl)).
  intros v Hv. discriminate Hv.
Defined.

Lemma delta_updates_add_up_witness :
  snd (handle ascii_lower (PATCH_book_stock dune_id (by_delta 4))
         (snd (handle ascii_lower (PATCH_book_stock dune_id (by_delta (-4)))
                 (scenario_state ascii_lower))))
  = scenario_state ascii_lower.
Proof.
  apply (proj2 (delta_updates_add_up ascii_lower (scenario_state ascii_lower)
                  dune_id dune_book (-4) 4 eq_refl
                  ltac:(simpl; lia) ltac:(simpl; lia))).
  reflexivity.
Defined.

Lemma copies_accounted_for_witness :
  exists b',
    dict_get
      (books
         (snd (run ascii_lower
                 [POST_order_confirm order1_id; POST_orders order3_id order1;
                  POST_order_confirm order3_id; POST_order_confirm order2_id]
                 (scenario_state ascii_lower)))) dune_id = Some b' /\
    Book.stock b' +
    confirmed_qty dune_id
      (snd (run ascii_lower
              [POST_order_confirm order1_id; POST_orders order3_id order1;
               POST_order_confirm order3_id; POST_order_confirm order2_id]
              (scenario_state ascii_lower)))
    = 10.
Proof.
  destruct (copies_accounted_for ascii_lower
              [POST_order_confirm order1_id; POST_orders order3_id order1;
               POST_order_confirm order3_id; POST_order_confirm order2_id]
              (scenario_state ascii_lower) dune_id dune_book eq_refl)
    as (b' & Hb & E & _).
  - fresh_by_evaluation.
  - reflexivity.
  - exists b'. split; [exact Hb|]. exact E.
Defined.

Lemma created_book_listed_last_witness :
  exists b st1,
    handle ascii_lower (POST_books unknown_id dune) (scenario_state ascii_lower)
    = (Ok (BookBody b), st1) /\
    fst (handle ascii_lower (GET_books None) st1) =
      Ok (ListingBody {| items := [dune_book; foundation_book; b]; count := 3 |}).
Proof.
  destruct (created_book_listed_last ascii_lower unknown_id dune
              (scenario_state ascii_lower) eq_refl eq_refl)
    as (b & st1 & Hp & Hl & _).
  exists b, st1. split; [exact Hp|].
  apply (Hl [dune_book; foundation_book] 2). reflexivity.
Defined.

Lemma set_stock_overrides_witness :
  handle ascii_lower (PATCH_book_stock dune_id (by_set_stock 4))
    (snd (handle ascii_lower (PATCH_book_stock dune_id (by_delta 25))
            (scenario_state ascii_lower)))
  = handle ascii_lower (PATCH_book_stock dune_id (by_set_stock 4))
      (scenario_state ascii_lower).
Proof.
  apply (set_stock_overrides ascii_lower (scenario_state ascii_lower) dune_id
           (by_delta 25) 4).
  lia.
Defined.
